(** * driverpackage.py: a shallow embedding of the Control4 driver packager

    The program under study is [src/driverpackage.py]: the class
    [DriverPackager] with its constructor and the methods [Squish],
    [CreateFromManifest], [GetEncryptFilename], [CleanupTmpFile], [ParseXml],
    [UpdateDriverXml] and [Log].

    Python code is embedded as functions in a state-and-exception monad: the
    state holds what the program can observe of its host (file system, working
    directory, environment variables, standard output) together with the two
    mutable objects the methods share (the flags of the [build_c4z] module and
    [self.bytes_io]); an exception leaves the state as it was when it was
    raised.  [os.path] is the POSIX flavour ([posixpath]); paths are read
    lexically (see [Os.resolve] and [Os.plain_path]), and the file system
    has neither permissions nor symbolic links.  The XML library (lxml),
    child processes, the clock, the text codecs and the [build_c4z] module
    are outside the source file; they are gathered in the record [Ext].
    The command-line parser (lines 734-758) is a configuration of
    [argparse] and is not embedded. *)

From Stdlib Require Import ZArith Ascii String List Lia.
From stdpp Require Import base option list gmap strings.

Local Open Scope Z_scope.
Local Set Warnings "-register-all".

(** ** Python values and exceptions *)

Module Py.

(** The exception classes the program raises or catches.  [OSError] is the
    error of an operating-system call, with its [errno] and the path at
    fault.  [OSError_msg] is an [OSError] built from a message only, as
    lxml raises when it cannot read a file: its [errno] and its [filename]
    are [None].  [ParseError] carries the error code of the parser and its
    message, [CalledProcessError] the exit code and the command,
    [UnicodeDecodeError] its message. *)
Inductive exn : Type :=
| Exception (msg : string)
| NameError (name : string)
| KeyError (key : string)
| TypeError (msg : string)
| ValueError (msg : string)
| AttributeError (msg : string)
| IndexError (msg : string)
| OSError (errno : Z) (path : string)
| OSError_msg (msg : string)
| ParseError (code : Z) (msg : string)
| CalledProcessError (returncode : Z) (cmd : list string)
| UnicodeDecodeError (msg : string)
| StopIteration.

Definition ENOENT : Z := 2.
Definition EEXIST : Z := 17.
Definition ENOTDIR : Z := 20.
Definition EISDIR : Z := 21.

(** [isinstance(e, OSError)], the test of [except OSError] and of
    [except IOError]. *)
Definition is_OSError (e : exn) : bool :=
  match e with OSError _ _ | OSError_msg _ => true | _ => false end.

Definition is_ParseError (e : exn) : bool :=
  match e with ParseError _ _ => true | _ => false end.

Definition is_CalledProcessError (e : exn) : bool :=
  match e with CalledProcessError _ _ => true | _ => false end.

(** [x is not None]. *)
Definition is_not_None {A} (x : option A) : bool :=
  match x with Some _ => true | None => false end.

(** [str(x)] for a value that is a string or [None]. *)
Definition str (v : option string) : string :=
  match v with Some s => s | None => "None" end.

(** Truth value of a string-or-[None]: [None] and [''] are false. *)
Definition truthy (v : option string) : bool :=
  match v with
  | Some s => negb (bool_decide (s = ""))
  | None => false
  end.

(** [v == s] where [v] is a string or [None] and [s] a string. *)
Definition eq_str (v : option string) (s : string) : bool :=
  bool_decide (v = Some s).

(** ASCII [str.lower]. *)
Definition lower_ascii (c : ascii) : ascii :=
  let n := nat_of_ascii c in
  if (Nat.leb 65 n && Nat.leb n 90)%bool then ascii_of_nat (n + 32) else c.

Fixpoint lower (s : string) : string :=
  match s with
  | EmptyString => EmptyString
  | String c s' => String (lower_ascii c) (lower s')
  end.

(** [s.replace(old, new)] for one-character [old] and [new]. *)
Fixpoint replace (old new : ascii) (s : string) : string :=
  match s with
  | EmptyString => EmptyString
  | String c s' =>
      String (if bool_decide (c = old) then new else c) (replace old new s')
  end.

(** [s[:n]] and [s[n:]] for [0 <= n]. *)
Fixpoint take (n : nat) (s : string) : string :=
  match n, s with
  | S n', String c s' => String c (take n' s')
  | _, _ => EmptyString
  end.

Fixpoint drop (n : nat) (s : string) : string :=
  match n, s with
  | S n', String _ s' => drop n' s'
  | _, _ => s
  end.

(** [s.rfind(c)]: the highest index of [c] in [s], or [-1]. *)
Fixpoint rfind_from (c : ascii) (s : string) (i last : Z) : Z :=
  match s with
  | EmptyString => last
  | String a s' =>
      rfind_from c s' (i + 1) (if bool_decide (a = c) then i else last)
  end.

Definition rfind (c : ascii) (s : string) : Z := rfind_from c s 0 (-1).

Fixpoint startswith (pre s : string) : bool :=
  match pre, s with
  | EmptyString, _ => true
  | String a pre', String b s' => bool_decide (a = b) && startswith pre' s'
  | String _ _, EmptyString => false
  end.

Definition endswith (suf s : string) : bool :=
  startswith (String.rev suf) (String.rev s).

(** Line ends as text mode gives them: [CR LF] and [CR] become [LF]. *)
Fixpoint universal_newlines (s : string) : string :=
  match s with
  | EmptyString => EmptyString
  | String c s' =>
      if bool_decide (c = "013"%char) then
        match s' with
        | String c' s'' =>
            if bool_decide (c' = "010"%char)
            then String "010"%char (universal_newlines s'')
            else String "010"%char (universal_newlines s')
        | EmptyString => String "010"%char EmptyString
        end
      else String c (universal_newlines s')
  end.

(** [sep.join(parts)]. *)
Fixpoint join (sep : string) (parts : list string) : string :=
  match parts with
  | [] => ""
  | [p] => p
  | p :: ps => p +:+ sep +:+ join sep ps
  end.

(** [s.split(c)] for a one-character separator. *)
Fixpoint split_from (c : ascii) (s : string) (cur : string) : list string :=
  match s with
  | EmptyString => [String.rev cur]
  | String a s' =>
      if bool_decide (a = c) then String.rev cur :: split_from c s' ""
      else split_from c s' (String a cur)
  end.

Definition split (c : ascii) (s : string) : list string := split_from c s "".

End Py.

(** ** [os.path], POSIX flavour *)

Module OsPath.

Definition sep : ascii := "/"%char.
Definition extsep : ascii := "."%char.
Definition pathsep : string := ":".

(** [posixpath.join(a, b)]. *)
Definition join (a b : string) : string :=
  if Py.startswith "/" b then b
  else if bool_decide (a = "") || Py.endswith "/" a then a +:+ b
  else a +:+ "/" +:+ b.

(** Is there a character other than [extsep] in [s]? *)
Fixpoint has_non_extsep (s : string) : bool :=
  match s with
  | EmptyString => false
  | String c s' => negb (bool_decide (c = extsep)) || has_non_extsep s'
  end.

(** [genericpath._splitext(p, sep, None, extsep)]: the extension starts at
    the last dot of the last path component, and leading dots of that
    component do not start an extension. *)
Definition splitext (p : string) : string * string :=
  let sepIndex := Py.rfind sep p in
  let dotIndex := Py.rfind extsep p in
  if dotIndex >? sepIndex then
    let filename := Py.drop (Z.to_nat (sepIndex + 1)) p in
    let stem := Py.take (Z.to_nat (dotIndex - (sepIndex + 1))) filename in
    if has_non_extsep stem
    then (Py.take (Z.to_nat dotIndex) p, Py.drop (Z.to_nat dotIndex) p)
    else (p, "")
  else (p, "").

(** [s.lstrip('/')] and [s.rstrip('/')]. *)
Fixpoint lstrip_sep (s : string) : string :=
  match s with
  | String c s' => if bool_decide (c = sep) then lstrip_sep s' else s
  | EmptyString => EmptyString
  end.

Definition rstrip_sep (s : string) : string :=
  String.rev (lstrip_sep (String.rev s)).

(** [posixpath.dirname(p)]: everything before the last slash, without its
    trailing slashes unless it consists of slashes only. *)
Definition dirname (p : string) : string :=
  let i := Z.to_nat (Py.rfind sep p + 1) in
  let head := Py.take i p in
  if bool_decide (lstrip_sep head = "") then head else rstrip_sep head.

(** The components of a path, read lexically: empty components and [.]
    are dropped, [..] removes the component before it. *)
Definition push_component (acc : list string) (c : string) : list string :=
  if bool_decide (c = "") || bool_decide (c = ".") then acc
  else if bool_decide (c = "..") then removelast acc
  else acc ++ [c].

Definition components (p : string) : list string :=
  fold_left push_component (Py.split sep p) [].

(** The text of an absolute path with the given components. *)
Definition unparts (cs : list string) : string :=
  "/" +:+ Py.join "/" cs.

(** [posixpath.normpath(path)]: empty components and [.] are dropped, [..]
    removes the component before it (at the root it is dropped, at the
    start of a relative path it is kept), and exactly two leading slashes
    are kept as they are. *)
Definition normpath_component (absolute : bool) (new_comps : list string)
           (comp : string) : list string :=
  if bool_decide (comp = "") || bool_decide (comp = ".") then new_comps
  else if negb (bool_decide (comp = ".."))
          || (negb absolute && bool_decide (new_comps = []))
          || bool_decide (last new_comps = Some "..")
       then new_comps ++ [comp]
       else removelast new_comps.

Definition normpath (path : string) : string :=
  if bool_decide (path = "") then "."
  else
    let initial_slashes :=
      if Py.startswith "/" path then
        if Py.startswith "//" path && negb (Py.startswith "///" path)
        then "//" else "/"
      else "" in
    let comps :=
      fold_left (normpath_component (Py.startswith "/" path))
                (Py.split sep path) [] in
    let path := initial_slashes +:+ Py.join "/" comps in
    if bool_decide (path = "") then "." else path.

End OsPath.

(** ** XML documents as lxml presents them *)

Module Xml.

(** An element: its tag, its attributes in document order, the text before
    its first child ([None] when there is none) and its child elements. *)
Inductive element : Type :=
  Element { tag : string;
            attrib : list (string * string);
            text : option string;
            children : list element }.

Fixpoint assoc (k : string) (l : list (string * string)) : option string :=
  match l with
  | [] => None
  | (k', v) :: l' => if bool_decide (k' = k) then Some v else assoc k l'
  end.

(** [e.attrib.get(k)] and [k in e.attrib]. *)
Definition get (e : element) (k : string) : option string :=
  assoc k (attrib e).

Definition has (e : element) (k : string) : bool :=
  bool_decide (is_Some (get e k)).

(** The document with a given text, among the documents a parser knows. *)
Fixpoint assoc_doc (k : string) (l : list (string * element)) : option element :=
  match l with
  | [] => None
  | (k', v) :: l' => if bool_decide (k' = k) then Some v else assoc_doc k l'
  end.

Fixpoint assoc_set (k v : string) (l : list (string * string))
  : list (string * string) :=
  match l with
  | [] => [(k, v)]
  | (k', v') :: l' =>
      if bool_decide (k' = k) then (k, v) :: l' else (k', v') :: assoc_set k v l'
  end.

(** [e.set(k, v)] and [e.text = t]. *)
Definition set (k v : string) (e : element) : element :=
  Element (tag e) (assoc_set k v (attrib e)) (text e) (children e).

Definition set_text (t : option string) (e : element) : element :=
  Element (tag e) (attrib e) t (children e).

Definition has_tag (t : string) (e : element) : bool :=
  bool_decide (tag e = t).

(** [e.findall(t)] and [e.find(t)] for a plain tag name: the children of
    [e] with that tag, and the first of them. *)
Definition findall (t : string) (e : element) : list element :=
  List.filter (has_tag t) (children e).

Definition find (t : string) (e : element) : option element :=
  head (findall t e).

(** [e.findall('./t1/t2')] and [e.find('./t1/t2')]. *)
Definition findall2 (t1 t2 : string) (e : element) : list element :=
  flat_map (findall t2) (findall t1 e).

Definition find2 (t1 t2 : string) (e : element) : option element :=
  head (findall2 t1 t2 e).

(** [for c in e.findall(t): e.remove(c)]. *)
Definition remove_all (t : string) (e : element) : element :=
  Element (tag e) (attrib e) (text e)
          (List.filter (fun c => negb (has_tag t c)) (children e)).

(** [etree.SubElement(e, t)] followed by the assignments made to the new
    child: the child [c] becomes the last child of [e]. *)
Definition append (c : element) (e : element) : element :=
  Element (tag e) (attrib e) (text e) (children e ++ [c]).

(** A change made through the object returned by [e.find(t)] is a change of
    the first child of [e] with tag [t]. *)
Fixpoint update_first (t : string) (f : element -> element)
         (cs : list element) : list element :=
  match cs with
  | [] => []
  | c :: cs' => if has_tag t c then f c :: cs' else c :: update_first t f cs'
  end.

Definition update_find (t : string) (f : element -> element) (e : element)
  : element :=
  Element (tag e) (attrib e) (text e) (update_first t f (children e)).

End Xml.

(** ** The host: file system, process environment, standard output *)

Inductive node : Type :=
| Dir
| File (content : string).

(** What the program reads and writes.  The file system maps the components of
    an absolute path to a node; the root directory always exists.
    [squishLua_] and [c4i_] are the module variables of [build_c4z];
    [bytes_io] is the content of [self.bytes_io], or [None] once [ParseXml]
    has assigned [None] to it. *)
Record state : Type := State {
  fs : gmap (list string) node;
  cwd : string;
  environ : gmap string string;
  stdout : list string;
  squishLua_ : bool;
  c4i_ : bool;
  bytes_io : option string
}.

Definition with_fs (f : gmap (list string) node) (st : state) : state :=
  State f (cwd st) (environ st) (stdout st) (squishLua_ st) (c4i_ st) (bytes_io st).
Definition with_cwd (d : string) (st : state) : state :=
  State (fs st) d (environ st) (stdout st) (squishLua_ st) (c4i_ st) (bytes_io st).
Definition with_environ (e : gmap string string) (st : state) : state :=
  State (fs st) (cwd st) e (stdout st) (squishLua_ st) (c4i_ st) (bytes_io st).
Definition with_stdout (o : list string) (st : state) : state :=
  State (fs st) (cwd st) (environ st) o (squishLua_ st) (c4i_ st) (bytes_io st).
Definition with_squishLua_ (b : bool) (st : state) : state :=
  State (fs st) (cwd st) (environ st) (stdout st) b (c4i_ st) (bytes_io st).
Definition with_c4i_ (b : bool) (st : state) : state :=
  State (fs st) (cwd st) (environ st) (stdout st) (squishLua_ st) b (bytes_io st).
Definition with_bytes_io (b : option string) (st : state) : state :=
  State (fs st) (cwd st) (environ st) (stdout st) (squishLua_ st) (c4i_ st) b.

(** The entries of the lists [c4zDirs] and [c4zFiles] that [ParseXml] builds
    for [build_c4z.compressLists]: the dictionaries
    [{'c4zDir': .., 'recurse': .., 'name': ..}] and
    [{'c4zDir': .., 'name': ..}]. *)
Record dir_spec : Type := DirSpec {
  dir_c4zDir : string;
  dir_recurse : bool;
  dir_name : string
}.

Record file_spec : Type := FileSpec {
  file_c4zDir : string;
  file_name : string
}.

(** What lies outside [driverpackage.py]: the XML parser and serializer of
    lxml, child processes, the clock, the interpreter's own location, the
    temporary directory, the archive reader of [zipfile], and the functions
    [GetSquishyOutputFile] and [compressLists] of [build_c4z].  A child
    process or an archive operation may change the file system but neither
    the working directory nor the environment of the packager.

    - [etree_fromstring text]: the root element, or the error code of the
      parser when [text] is not well-formed;
    - [etree_syntax_error path text]: the message of the [ParseError] that
      lxml raises for the ill-formed [text] read at [path];
    - [etree_read_error path]: the message of the [OSError] that lxml
      raises when [path] names nothing;
    - [etree_read_dir path]: how lxml gives up on the directory [path],
      which depends on the libxml2 it is built with: the message of an
      [OSError] when the directory is refused ([inl]), or the code of the
      [ParseError] for the empty document that is read from it ([inr]);
    - [os_error_str errno path]: [str] of the [OSError] of an
      operating-system call;
    - [called_process_error_str cmd code]: [str] of a
      [CalledProcessError];
    - [decode_text encoding bytes]: the text Python reads from a file with
      these bytes through [codecs.open(path, 'r', encoding)], or the
      message of the [UnicodeDecodeError]; without an encoding the file is
      opened in text mode (the encoding of the locale, line ends
      translated), with one the bytes are decoded as they are;
    - [etree_tostring pretty_print root]: the serialized document;
    - [xml_text_ok text]: whether lxml takes [text] as the text of an
      element (it refuses a string with a NUL byte or a control
      character);
    - [shell command cwd env fs]: the file system after [os.system] has run
      [command], and the status it returns;
    - [spawn argv cwd env fs]: the file system after the program [argv] has
      run, and its exit code ([inr]) or the [errno] with which it could not
      be started ([inl]);
    - [strftime_now format]: the current local time in the given format;
    - [sys_frozen], [sys_executable], [module_file], [realpath]:
      [getattr(sys, 'frozen', False)], [sys.executable], [__file__] and
      [os.path.realpath];
    - [gettempdir]: [tempfile.gettempdir()];
    - [extractall archive target fs]: the file system after the archive has
      been unpacked into [target], or an [errno]. *)
Record Ext : Type := {
  etree_fromstring : string -> Z + Xml.element;
  etree_syntax_error : string -> string -> string;
  etree_read_error : string -> string;
  etree_read_dir : string -> string + Z;
  etree_tostring : bool -> Xml.element -> string;
  xml_text_ok : string -> bool;
  os_error_str : Z -> string -> string;
  called_process_error_str : list string -> Z -> string;
  decode_text : option string -> string -> string + string;
  shell : string -> string -> gmap string string -> gmap (list string) node
          -> gmap (list string) node * Z;
  spawn : list string -> string -> gmap string string -> gmap (list string) node
          -> gmap (list string) node * (Z + Z);
  strftime_now : string -> string;
  sys_frozen : bool;
  sys_executable : string;
  module_file : string;
  realpath : string -> string;
  GetSquishyOutputFile : string -> gmap (list string) node -> option string;
  compressLists : string -> string -> list dir_spec -> list file_spec
                  -> option string -> string -> string
                  -> gmap (list string) node -> gmap (list string) node * bool;
  gettempdir : string;
  extractall : list string -> list string -> gmap (list string) node
               -> Z + gmap (list string) node
}.

(** ** The monad of Python statements *)

Definition M (A : Type) : Type := state -> state * (Py.exn + A).

Definition ret {A} (a : A) : M A := fun st => (st, inr a).

Definition raise {A} (e : Py.exn) : M A := fun st => (st, inl e).

Definition bind {A B} (m : M A) (k : A -> M B) : M B :=
  fun st =>
    match m st with
    | (st', inr a) => k a st'
    | (st', inl e) => (st', inl e)
    end.

Declare Scope py_scope.
Delimit Scope py_scope with py.
Notation "x <- m ;; k" := (bind m (fun x => k))
  (at level 100, m at next level, right associativity) : py_scope.
Notation "m ;; k" := (bind m (fun _ => k))
  (at level 100, right associativity) : py_scope.
Local Open Scope py_scope.

Definition get_state : M state := fun st => (st, inr st).
Definition modify (f : state -> state) : M unit := fun st => (f st, inr tt).

(** [if c: raise e]. *)
Definition raise_if (c : bool) (e : Py.exn) : M unit :=
  if c then raise e else ret tt.

(** [if c: body]. *)
Definition when (c : bool) (body : M unit) : M unit :=
  if c then body else ret tt.

(** [try: body / except <classes>: handler]: [handles e] tells whether the
    clause catches [e]. *)
Definition try_except {A} (body : M A) (handles : Py.exn -> bool)
           (handler : Py.exn -> M A) : M A :=
  fun st =>
    match body st with
    | (st', inl e) => if handles e then handler e st' else (st', inl e)
    | r => r
    end.

(** [try: body / finally: final]: [final] runs on every exit, and an
    exception it raises replaces the outcome of [body].  The result pairs
    what [body] and [final] computed. *)
Definition try_finally {A B} (body : M A) (final : M B) : M (A * B) :=
  fun st =>
    match body st with
    | (st', r) =>
        match final st' with
        | (st'', inr b) =>
            (st'', match r with inr a => inr (a, b) | inl e => inl e end)
        | (st'', inl e) => (st'', inl e)
        end
    end.

(** [for x in xs: acc = body(x, acc)]. *)
Fixpoint for_each {A B} (xs : list A) (body : A -> B -> M B) (acc : B) : M B :=
  match xs with
  | [] => ret acc
  | x :: xs' => acc' <- body x acc ;; for_each xs' body acc'
  end.

(** Reading a name that is bound neither in the function, nor at module
    level, nor in [builtins].  The names read this way in the source are
    [oldPath], [driverName], [driverType], [squishLua], [c4zName], [xmlRoot],
    [dateModified] and [driverVersion]: none of them is assigned anywhere in
    the module (the statements [global squishLua] and [global c4i] at module
    level bind nothing). *)
Definition unbound {A} (name : string) : M A := raise (Py.NameError name).

(** The names bound at module level when a method runs. *)
Definition module_names : list string :=
  ["argparse"; "codecs"; "datetime"; "glob"; "BytesIO"; "os"; "shutil";
   "subprocess"; "sys"; "tempfile"; "Any"; "Optional"; "zipfile"; "etree";
   "c4z"; "DriverPackager"; "CreateDriverPackagerFromCommandLineArguments"].

(** ** [os], [shutil] and [print] *)

Module Os.

(** The components of the absolute path that [p] names, read lexically.
    This is where the operating system looks when [p] is a plain path
    ([plain_path] below).  On other paths the two can differ: the system
    refuses the empty path, looks [..] up in the directory before it, which
    must exist, and refuses a slash or a [.] after the name of a file. *)
Definition resolve (st : state) (p : string) : list string :=
  OsPath.components (OsPath.join (cwd st) p).

Definition lookup (f : gmap (list string) node) (k : list string)
  : option node :=
  match k with
  | [] => Some Dir
  | _ => f !! k
  end.

Definition node_at (st : state) (p : string) : option node :=
  lookup (fs st) (resolve st p).

Definition is_dir (st : state) (p : string) : bool :=
  match node_at st p with Some Dir => true | _ => false end.

Definition path_exists (st : state) (p : string) : bool :=
  match node_at st p with Some _ => true | None => false end.

(** [os.path.exists(p)], [os.path.isdir(p)] and [os.getcwd()]. *)
Definition exists_ (p : string) : M bool :=
  fun st => (st, inr (path_exists st p)).

Definition isdir (p : string) : M bool :=
  fun st => (st, inr (is_dir st p)).

Definition getcwd : M string := fun st => (st, inr (cwd st)).

(** [os.chdir(p)]. *)
Definition chdir (p : string) : M unit :=
  fun st =>
    match node_at st p with
    | Some Dir => (with_cwd (OsPath.unparts (resolve st p)) st, inr tt)
    | Some (File _) => (st, inl (Py.OSError Py.ENOTDIR p))
    | None => (st, inl (Py.OSError Py.ENOENT p))
    end.

(** [os.environ[k]] and [os.environ[k] = v]. *)
Definition environ_get (k : string) : M string :=
  fun st =>
    match environ st !! k with
    | Some v => (st, inr v)
    | None => (st, inl (Py.KeyError k))
    end.

Definition environ_set (k v : string) : M unit :=
  modify (fun st => with_environ (<[k := v]> (environ st)) st).

(** [print(line)]. *)
Definition print (line : string) : M unit :=
  modify (fun st => with_stdout (stdout st ++ [line]) st).

(** Opening [p] for reading and reading all of it. *)
Definition read (p : string) : M string :=
  fun st =>
    match node_at st p with
    | Some (File c) => (st, inr c)
    | Some Dir => (st, inl (Py.OSError Py.EISDIR p))
    | None => (st, inl (Py.OSError Py.ENOENT p))
    end.

(** The file system after [content] has been stored under the key [k], or
    the [errno] of the failure: the target must not be a directory and must
    lie in a directory. *)
Definition store (f : gmap (list string) node) (k : list string)
           (content : string) : Z + gmap (list string) node :=
  match lookup f k with
  | Some Dir => inl Py.EISDIR
  | _ =>
      match lookup f (removelast k) with
      | Some Dir => inr (<[k := File content]> f)
      | Some (File _) => inl Py.ENOTDIR
      | None => inl Py.ENOENT
      end
  end.

(** Opening [p] with mode ['w'] and writing [content]. *)
Definition write (p : string) (content : string) : M unit :=
  fun st =>
    match store (fs st) (resolve st p) content with
    | inr f => (with_fs f st, inr tt)
    | inl errno => (st, inl (Py.OSError errno p))
    end.

(** Opening [p] with mode ['a'] and writing [content]. *)
Definition append (p : string) (content : string) : M unit :=
  fun st =>
    let old := match node_at st p with Some (File c) => c | _ => "" end in
    match store (fs st) (resolve st p) (old +:+ content) with
    | inr f => (with_fs f st, inr tt)
    | inl errno => (st, inl (Py.OSError errno p))
    end.

(** [os.remove(p)]. *)
Definition remove (p : string) : M unit :=
  fun st =>
    match node_at st p with
    | Some (File _) => (with_fs (delete (resolve st p) (fs st)) st, inr tt)
    | Some Dir => (st, inl (Py.OSError Py.EISDIR p))
    | None => (st, inl (Py.OSError Py.ENOENT p))
    end.

(** [shutil.copyfile(src, dst)]. *)
Definition copyfile (src dst : string) : M unit :=
  bind (read src) (fun c => write dst c).

(** [os.path.basename(p)]. *)
Definition basename (p : string) : string :=
  Py.drop (Z.to_nat (Py.rfind OsPath.sep p + 1)) p.

(** [shutil.copy(src, dst)]: into [dst] when it is a directory. *)
Definition copy (src dst : string) : M unit :=
  bind (isdir dst) (fun d =>
    copyfile src (if d then OsPath.join dst (basename src) else dst)).

(** [os.makedirs(p, exist_ok=True)]: every missing directory on the way to
    [p] is created, from the outermost; a directory that exists is left
    alone; a file on the way is an error: [EEXIST] for [p] itself, and
    [ENOTDIR] before it, raised by [mkdir] for the path one component
    below the file.  [done] is the part of the path already known to be a
    directory; an error comes with the number of components of [p] below
    the path that [mkdir] refused. *)
Fixpoint makedirs_from (done todo : list string)
         (f : gmap (list string) node) : Z * nat + gmap (list string) node :=
  match todo with
  | [] => inr f
  | c :: todo' =>
      let d := done ++ [c] in
      match lookup f d with
      | Some Dir => makedirs_from d todo' f
      | Some (File _) =>
          inl (match todo' with
               | [] => (Py.EEXIST, O)
               | _ :: below => (Py.ENOTDIR, length below)
               end)
      | None => makedirs_from d todo' (<[d := Dir]> f)
      end
  end.

(** [next(os.walk(p))[1]]: the names of the directories directly in [p]. *)
Definition subdirs_of (f : gmap (list string) node) (k : list string)
  : list string :=
  omap (fun '(k', n) =>
          match n with
          | Dir => if bool_decide (removelast k' = k) then last k' else None
          | File _ => None
          end)
       (map_to_list f).

Definition walk_dirs (p : string) : M (list string) :=
  fun st =>
    match node_at st p with
    | Some Dir => (st, inr (subdirs_of (fs st) (resolve st p)))
    | _ => (st, inl Py.StopIteration)
    end.

(** [shutil.rmtree(p)]. *)
Definition rmtree (p : string) : M unit :=
  fun st =>
    match node_at st p with
    | Some Dir =>
        (with_fs (filter (fun '(k', _) => ¬ resolve st p `prefix_of` k') (fs st)) st,
         inr tt)
    | Some (File _) => (st, inl (Py.OSError Py.ENOTDIR p))
    | None => (st, inl (Py.OSError Py.ENOENT p))
    end.

Definition makedirs (p : string) : M unit :=
  fun st =>
    match makedirs_from [] (resolve st p) (fs st) with
    | inr f => (with_fs f st, inr tt)
    | inl (errno, below) =>
        (st, inl (Py.OSError errno (Nat.iter below OsPath.dirname p)))
    end.

(** [os.listdir(p)]: the names of the entries directly in [p], in the order
    in which the file system lists them. *)
Definition entries_of (f : gmap (list string) node) (k : list string)
  : list string :=
  omap (fun '(k', _) => if bool_decide (removelast k' = k) then last k' else None)
       (map_to_list f).

Definition listdir (p : string) : M (list string) :=
  fun st =>
    match node_at st p with
    | Some Dir => (st, inr (entries_of (fs st) (resolve st p)))
    | Some (File _) => (st, inl (Py.OSError Py.ENOTDIR p))
    | None => (st, inl (Py.OSError Py.ENOENT p))
    end.

(** [os.path.isfile(p)]. *)
Definition isfile (p : string) : M bool :=
  fun st =>
    (st, inr (match node_at st p with Some (File _) => true | _ => false end)).

(** [os.path.split(p)]: the part before the last slash, as [dirname] gives
    it, and the part after it. *)
Definition split (p : string) : string * string :=
  (OsPath.dirname p, basename p).

(** [os.path.abspath(p)]. *)
Definition abspath (p : string) : M string :=
  fun st => (st, inr (OsPath.normpath (OsPath.join (cwd st) p))).

(** A plain file name: one path component, which is neither empty nor [.]
    nor [..]. *)
Fixpoint no_sep (s : string) : bool :=
  match s with
  | EmptyString => true
  | String c s' => negb (bool_decide (c = OsPath.sep)) && no_sep s'
  end.

Definition plain_name (s : string) : bool :=
  no_sep s && negb (bool_decide (s = "")) && negb (bool_decide (s = "."))
  && negb (bool_decide (s = "..")).

(** A plain path: plain names separated by single slashes, after at most
    one leading slash.  It is not empty, has no [.] or [..] component and
    does not end with a slash. *)
Definition plain_path (p : string) : bool :=
  match Py.split OsPath.sep p with
  | "" :: c :: cs => forallb plain_name (c :: cs)
  | cs => forallb plain_name cs
  end.

End Os.

(** ** The class [DriverPackager] *)

Module DriverPackager.

(** The [argparse.Namespace] given to the constructor.  [driver_version] is
    [None] or the list that [nargs=1] produces. *)
Record arguments : Type := Namespace {
  arg_verbose : bool;
  arg_source_directory_path : string;
  arg_destination_directory_path : string;
  arg_manifest_xml_filename : option string;
  arg_unzip : bool;
  arg_allowexecute : bool;
  arg_update_modified : bool;
  arg_driver_version : option (list string)
}.

(** The fields of a packager that are set once, by the constructor.
    [driver_version] is [None] where the source stores [False]; the field
    [bytes_io] is reassigned by [ParseXml] and lives in the state. *)
Record self : Type := Self {
  verbose : bool;
  source_directory_path : string;
  destination_directory_path : string;
  manifest_xml_filename : option string;
  unzip : bool;
  allow_execute : bool;
  update_modified : bool;
  driver_version : option string
}.

Definition with_driver_version (v : option string) (s : self) : self :=
  Self (verbose s) (source_directory_path s) (destination_directory_path s)
       (manifest_xml_filename s) (unzip s) (allow_execute s)
       (update_modified s) v.

(** The local variables of [ParseXml] that the item loop updates. *)
Record locals : Type := Locals {
  c4zDriverXmlFound : bool;
  c4zScriptFile : option string;
  c4zDirs : list dir_spec;
  c4zFiles : list file_spec
}.

Section Methods.

Context (ext : Ext).

(** [Log] (lines 722-729). *)
Definition Log (self : self) (line : string) : M unit :=
  when (verbose self)
       (Os.print (strftime_now ext "%Y-%m-%d-%H:%M:%S" +:+ ": " +:+ line)).

(** [str(e)] for an exception, as [Log] and the f-strings print it.  The
    text of a [KeyError] is the [repr] of its key, written here for a key
    without quotes or backslashes. *)
Definition exn_str (e : Py.exn) : string :=
  match e with
  | Py.Exception msg => msg
  | Py.NameError name => "name '" +:+ name +:+ "' is not defined"
  | Py.KeyError key => "'" +:+ key +:+ "'"
  | Py.TypeError msg => msg
  | Py.ValueError msg => msg
  | Py.AttributeError msg => msg
  | Py.IndexError msg => msg
  | Py.OSError errno path => os_error_str ext errno path
  | Py.OSError_msg msg => msg
  | Py.ParseError _ msg => msg
  | Py.CalledProcessError code cmd => called_process_error_str ext cmd code
  | Py.UnicodeDecodeError msg => msg
  | Py.StopIteration => ""
  end.

(** [__init__] (lines 36-74). *)
Definition __init__ (a : arguments) : M self :=
  let self :=
    Self (arg_verbose a) (arg_source_directory_path a)
         (arg_destination_directory_path a) (arg_manifest_xml_filename a)
         (arg_unzip a) (arg_allowexecute a) (arg_update_modified a) None in
  modify (with_bytes_io (Some "")) ;;
  self <- match arg_driver_version a with
          | Some (v :: _) => ret (with_driver_version (Some v) self)
          | Some [] => raise (Py.IndexError "list index out of range")
          | None =>
              Log self "Version argument not found, skipping version update." ;;
              ret self
          end ;;
  Os.makedirs (destination_directory_path self) ;;
  ret self.

(** [subprocess.check_call(argv, stderr=subprocess.STDOUT)]. *)
Definition check_call (argv : list string) : M unit :=
  fun st =>
    match spawn ext argv (cwd st) (environ st) (fs st) with
    | (f, inl errno) =>
        (with_fs f st, inl (Py.OSError errno (default "" (head argv))))
    | (f, inr code) =>
        (with_fs f st,
         if bool_decide (code = 0) then inr tt
         else inl (Py.CalledProcessError code argv))
    end.

(** [os.system(command)]. *)
Definition os_system (command : string) : M Z :=
  fun st =>
    match shell ext command (cwd st) (environ st) (fs st) with
    | (f, status) => (with_fs f st, inr status)
    end.

(** [Squish] (lines 82-147). *)
Definition Squish (self : self) (root_directory_path : string) : M unit :=
  Log self "Squishing Lua source..." ;;
  original_path_environment_variable_value <- Os.environ_get "PATH" ;;
  original_current_working_directory_path <- Os.getcwd ;;
  Os.print ("Saved Directory: " +:+ original_current_working_directory_path) ;;
  Os.chdir root_directory_path ;;
  d <- Os.getcwd ;;
  Os.print ("Current Directory: " +:+ d) ;;
  let lua_squish_command := ["luajit"] in
  lua_squish_command <-
    (if sys_frozen ext then
       let executable_path := realpath ext (sys_executable ext) in
       let executable_directory_path := OsPath.dirname executable_path in
       let squish_command_path :=
         OsPath.join executable_directory_path "squish" in
       let lua_squish_command := lua_squish_command ++ [squish_command_path] in
       oldPath <- unbound "oldPath" ;;
       Os.environ_set "PATH" (executable_directory_path +:+ ";" +:+ oldPath) ;;
       ret lua_squish_command
     else
       let current_filepath := realpath ext (module_file ext) in
       let current_file_directory_path := OsPath.dirname current_filepath in
       let squish_command_path :=
         OsPath.join current_file_directory_path "squish" in
       let lua_squish_command := lua_squish_command ++ [squish_command_path] in
       oldPath <- unbound "oldPath" ;;
       Os.environ_set "PATH"
         (current_file_directory_path +:+ OsPath.pathsep +:+ oldPath) ;;
       ret lua_squish_command) ;;
  let lua_squish_command := lua_squish_command ++ ["--no-minify"] in
  let lua_squish_command :=
    if verbose self then lua_squish_command ++ ["--vv"]
    else lua_squish_command in
  let lua_squish_command := lua_squish_command ++ [root_directory_path] in
  try_finally
    (try_except
       (Os.print ("Root Directory: " +:+ root_directory_path) ;;
        Os.print "CommandLine: " ;;
        Os.print (Py.join " " lua_squish_command) ;;
        check_call lua_squish_command)
       (fun e => Py.is_OSError e || Py.is_CalledProcessError e)
       (fun exception =>
          if Py.is_OSError exception then
            raise (Py.Exception
                     ("DriverPackager: Error squishing lua "
                        +:+ exn_str exception))
          else
            raise (Py.Exception
                     ("DriverPackager: Lua squish failed: "
                        +:+ exn_str exception +:+ " while processing "
                        +:+ root_directory_path))))
    (Os.environ_set "PATH" original_path_environment_variable_value ;;
     Os.chdir original_current_working_directory_path) ;;
  ret tt.

(** What lxml reads at [path]: the content of the file.  When the path
    names nothing, lxml raises an [OSError] that it builds from a message:
    the error has neither an [errno] nor a [filename].  A directory is
    refused in the same way, or read as an empty document, which is not
    well-formed. *)
Definition etree_read (path : string) : M string :=
  fun st =>
    match Os.node_at st path with
    | Some (File content) => (st, inr content)
    | Some Dir =>
        (st, inl (match etree_read_dir ext path with
                  | inl msg => Py.OSError_msg msg
                  | inr code => Py.ParseError code (etree_syntax_error ext path "")
                  end))
    | None => (st, inl (Py.OSError_msg (etree_read_error ext path)))
    end.

(** [etree.parse(path)] followed by [getroot()]. *)
Definition etree_parse (path : string) : M Xml.element :=
  content <- etree_read path ;;
  match etree_fromstring ext content with
  | inr root => ret root
  | inl code =>
      raise (Py.ParseError code (etree_syntax_error ext path content))
  end.

(** [''.join(f.readlines())] for [f = codecs.open(p, 'r', encoding)]. *)
Definition read_text (encoding : option string) (p : string) : M string :=
  bytes <- Os.read p ;;
  match decode_text ext encoding bytes with
  | inr text => ret text
  | inl msg => raise (Py.UnicodeDecodeError msg)
  end.

(** [GetEncryptFilename] (lines 184-209). *)
Definition GetEncryptFilename (self : self) (driver_xml_filepath : string)
  : M (option string) :=
  try_except
    (driver_xml_root_element <- etree_parse driver_xml_filepath ;;
     let script_elements :=
       Xml.findall2 "config" "script" driver_xml_root_element in
     for_each script_elements
       (fun script_element c4z_script_file =>
          let c4z_script_encryption := Xml.get script_element "encryption" in
          if Py.eq_str c4z_script_encryption "2" then
            st <- get_state ;;
            if squishLua_ st then
              ret (GetSquishyOutputFile ext (source_directory_path self) (fs st))
            else ret (Xml.get script_element "file")
          else ret c4z_script_file)
       None)
    Py.is_ParseError
    (fun exception =>
       raise (Py.Exception
                ("DriverPackager: Invalid XML (" +:+ driver_xml_filepath
                   +:+ "): " +:+ exn_str exception))).

(** [CleanupTmpFile] (lines 214-229). *)
Definition CleanupTmpFile (self : self) (root_directory_path : string)
  : M unit :=
  when (allow_execute self)
    (try_except
       (let temporary_driver_lua_filepath :=
          OsPath.join root_directory_path "driver.lua.tmp" in
        temporary_driver_lua_file_exists <-
          Os.exists_ temporary_driver_lua_filepath ;;
        when temporary_driver_lua_file_exists
          (let final_driver_lua_filepath :=
             OsPath.join root_directory_path "driver.lua" in
           Os.copyfile temporary_driver_lua_filepath final_driver_lua_filepath ;;
           Os.remove temporary_driver_lua_filepath))
       (fun _ => true)
       (fun _ =>
          Log self "Unable to remove driver.lua.tmp file or file does not exist")).

(** [tree.write(self.bytes_io, ...)]: the bytes are appended to the
    buffer; there is no buffer after [self.bytes_io = None]. *)
Definition write_bytes_io (data : string) : M unit :=
  fun st =>
    match bytes_io st with
    | Some b => (with_bytes_io (Some (b +:+ data)) st, inr tt)
    | None => (st, inl (Py.TypeError "File or filename expected, got 'NoneType'"))
    end.

(** [UpdateDriverXml] (lines 604-645). *)
Definition UpdateDriverXml (self : self) (driver_xml_filepath : string)
  : M unit :=
  try_except
    (driver_xml_root_element <- etree_parse driver_xml_filepath ;;
     driver_xml_root_element <-
       (if update_modified self then
          let date_modified_xml_element :=
            Xml.find "modified" driver_xml_root_element in
          dateModified <- unbound (A := option Xml.element) "dateModified" ;;
          let date_modified_xml_element_exists := Py.is_not_None dateModified in
          raise_if date_modified_xml_element_exists
                   (Py.Exception "<modified> tag not found") ;;
          let timestamp := strftime_now ext "%m/%d/%Y %I:%M %p" in
          root <- match date_modified_xml_element with
                  | Some _ =>
                      ret (Xml.update_find "modified"
                             (Xml.set_text (Some timestamp))
                             driver_xml_root_element)
                  | None =>
                      raise (Py.AttributeError
                               "'NoneType' object has no attribute 'text'")
                  end ;;
          Log self ("Build timestamp " +:+ timestamp) ;;
          ret root
        else ret driver_xml_root_element) ;;
     driver_xml_root_element <-
       (if Py.truthy (driver_version self) then
          let driver_version_xml_element :=
            Xml.find "version" driver_xml_root_element in
          let driver_version_xml_element_exists :=
            Py.is_not_None driver_version_xml_element in
          raise_if (negb driver_version_xml_element_exists)
                   (Py.Exception "<version> tag not found") ;;
          driverVersion <- unbound (A := Xml.element) "driverVersion" ;;
          let old_version := Xml.text driverVersion in
          let old_version_exists := Py.is_not_None old_version in
          raise_if (negb old_version_exists)
                   (Py.Exception "empty <version> tag") ;;
          ret (Xml.update_find "version"
                 (Xml.set_text (driver_version self))
                 driver_xml_root_element)
        else ret driver_xml_root_element) ;;
     write_bytes_io (etree_tostring ext false driver_xml_root_element))
    (fun _ => true)
    (fun exception =>
       Log self (exn_str exception) ;;
       raise (Py.Exception "Unable to update driver.xml")).

(** *** [ParseXml] (lines 231-599)

    The body is embedded block by block, in the order of the source; the
    method itself is the definition [ParseXml] below. *)

(** The three boolean attributes of the manifest, as lines 254-255,
    340-341 and 355-356 compute them. *)
Definition squish_lua (xml_root_element : Xml.element) : bool :=
  if Py.eq_str (Xml.get xml_root_element "squishLua") "true"
  then true else false.

Definition item_excluded (item_xml_element : Xml.element) : bool :=
  if Py.eq_str (Xml.get item_xml_element "exclude") (Py.lower "true")
  then true else false.

Definition recurse (item_xml_element : Xml.element) : bool :=
  if Py.eq_str (Xml.get item_xml_element "recurse") (Py.lower "true")
  then true else false.

(** Modelled from the spec: [build_c4z.setSquishLua] is not part of the
    source file; the spec says the squish flag is propagated as build-wide
    state, which is the module variable [c4z.squishLua_] that
    [GetEncryptFilename] reads. *)
Definition setSquishLua (b : bool) : M unit := modify (with_squishLua_ b).

(** Modelled from the spec: [build_c4z.setC4i], likewise, stores the output
    format flag in the module variable [c4z.c4i_]. *)
Definition setC4i (b : bool) : M unit := modify (with_c4i_ b).

(** A path argument: [os.path.join] and [os.path.splitext] raise
    [TypeError] on [None]. *)
Definition fspath (v : option string) : M string :=
  match v with
  | Some s => ret s
  | None =>
      raise (Py.TypeError
               "expected str, bytes or os.PathLike object, not NoneType")
  end.

(** [element.text.replace(..)] raises [AttributeError] when the element
    has no text. *)
Definition text_of (e : Xml.element) : M string :=
  match Xml.text e with
  | Some t => ret t
  | None =>
      raise (Py.AttributeError
               "'NoneType' object has no attribute 'replace'")
  end.

(** The body of the loop over the pre-package commands (lines 272-288). *)
Definition prepackage_command (self : self)
           (prepackage_command_xml_element : Xml.element) : M unit :=
  Os.print (Xml.tag prepackage_command_xml_element +:+ " "
              +:+ Py.str (Xml.text prepackage_command_xml_element)) ;;
  let is_valid_prepackage_command_xml :=
    bool_decide (Xml.tag prepackage_command_xml_element = "PrepackageCommand") in
  if negb is_valid_prepackage_command_xml then
    Log self ("Invalid XML: Found tag '"
                +:+ Xml.tag prepackage_command_xml_element
                +:+ "', should be 'PrepackageCommand'")
  else
    t <- text_of prepackage_command_xml_element ;;
    let prepackage_command := Py.replace "\"%char OsPath.sep t in
    let prepackage_command := Py.replace "/"%char OsPath.sep prepackage_command in
    let SUCCESS_RETURN_CODE := 0 in
    prepackage_command_return_code <- os_system prepackage_command ;;
    let prepackage_command_succeeded :=
      bool_decide (prepackage_command_return_code = SUCCESS_RETURN_CODE) in
    raise_if prepackage_command_succeeded
             (Py.Exception "Failed to execute prepackage command.").

(** Lines 267-288. *)
Definition prepackage_commands (self : self) (xml_root_element : Xml.element)
  : M unit :=
  match Xml.find "PrepackageCommands" xml_root_element with
  | Some prepackage_command_xml_elements =>
      for_each (Xml.children prepackage_command_xml_elements)
               (fun e _ => prepackage_command self e) tt
  | None => ret tt
  end.

(** The body of the loop over the post-package commands (lines 583-599). *)
Definition postpackage_command (self : self)
           (postpackage_command_xml_element : Xml.element) : M unit :=
  Os.print (Xml.tag postpackage_command_xml_element +:+ " "
              +:+ Py.str (Xml.text postpackage_command_xml_element)) ;;
  let is_valid_postpackage_command_xml :=
    bool_decide (Xml.tag postpackage_command_xml_element = "PostpackageCommand") in
  if is_valid_postpackage_command_xml then
    Log self ("Invalid XML: Found tag '"
                +:+ Xml.tag postpackage_command_xml_element
                +:+ "', should be 'PostpackageCommand'")
  else
    t <- text_of postpackage_command_xml_element ;;
    let postpackage_command := Py.replace "\"%char OsPath.sep t in
    let postpackage_command := Py.replace "/"%char OsPath.sep postpackage_command in
    let SUCCESS_RETURN_CODE := 0 in
    postpackage_command_return_code <- os_system postpackage_command ;;
    let postpackage_command_succeeded :=
      bool_decide (postpackage_command_return_code = SUCCESS_RETURN_CODE) in
    when postpackage_command_succeeded
         (Os.print "Failed to execute postpackage command.").

(** Lines 578-599. *)
Definition postpackage_commands (self : self) : M unit :=
  xmlRoot <- unbound (A := Xml.element) "xmlRoot" ;;
  match Xml.find "PostpackageCommands" xmlRoot with
  | Some postpackage_command_xml_elements =>
      for_each (Xml.children postpackage_command_xml_elements)
               (fun e _ => postpackage_command self e) tt
  | None => ret tt
  end.

(** The documentation block of the item loop (lines 390-462): when the
    first [documentation] element of the descriptor has a [textfile]
    attribute, the descriptor is backed up, the text file is read and the
    documentation elements are replaced by one that holds its text.  The
    [try] clause only opens the text file (line 424); the [finally] clause
    opens it again and reads it in text mode (lines 429-431). *)
Definition inject_documentation (self : self) (root_directory_path : string)
           (driver_type : option string) (item_filepath : string) : M unit :=
  driver_xml_root_element <- etree_parse item_filepath ;;
  let documentation_xml_elements :=
    Xml.findall2 "config" "documentation" driver_xml_root_element in
  let documentation_xml_elements_exist :=
    Nat.ltb 0 (length documentation_xml_elements) in
  if negb documentation_xml_elements_exist then ret tt
  else
    first_documentation_xml_element <-
      match Xml.find2 "config" "documentation" driver_xml_root_element with
      | Some e => ret e
      | None =>
          raise (Py.AttributeError
                   "'NoneType' object has no attribute 'attrib'")
      end ;;
    if Xml.has first_documentation_xml_element "textfile" then
      textfile <- match Xml.get first_documentation_xml_element "textfile" with
                  | Some t => ret t
                  | None => raise (Py.KeyError "textfile")
                  end ;;
      let documentation_file : option string := None in
      docFile <- (if Xml.has first_documentation_xml_element "file" then
                    match Xml.get first_documentation_xml_element "file" with
                    | Some f => ret (Some f)
                    | None => raise (Py.KeyError "file")
                    end
                  else ret None) ;;
      let item_backup_filepath := item_filepath +:+ ".bak" in
      Os.copy item_filepath item_backup_filepath ;;
      let textfile_path := OsPath.join root_directory_path textfile in
      r <- try_finally
             (try_except
                (Os.read textfile_path ;; ret tt)
                (fun _ => true)
                (fun ex =>
                   Log self ("Unable to find the file " +:+ "'" +:+ textfile
                               +:+ "'" +:+ " referenced in the 'textfile' attribute of the '<documentation>' element in your driver.xml")))
             (read_text None textfile_path) ;;
      let textfile_lines := snd r in
      xml_root_driver <- etree_parse item_filepath ;;
      xml_root_driver <-
        match Xml.find "config" xml_root_driver with
        | Some _ =>
            ret (Xml.update_find "config" (Xml.remove_all "documentation")
                                 xml_root_driver)
        | None =>
            raise (Py.AttributeError
                     "'NoneType' object has no attribute 'findall'")
        end ;;
      match Xml.find "config" xml_root_driver with
      | Some _ => ret tt
      | None =>
          raise (Py.TypeError
                   "Argument '_parent' has incorrect type (expected lxml.etree._Element, got NoneType)")
      end ;;
      raise_if (negb (xml_text_ok ext textfile_lines))
               (Py.ValueError
                  "All strings must be XML compatible: Unicode or ASCII, no NULL bytes or control characters") ;;
      let new_documentation_xml_element :=
        Xml.Element "documentation" [] (Some textfile_lines) [] in
      let is_c4z_driver := Py.eq_str driver_type "c4z" in
      let new_documentation_xml_element :=
        if is_c4z_driver then
          match documentation_file with
          | Some f => Xml.set "file" f new_documentation_xml_element
          | None => new_documentation_xml_element
          end
        else new_documentation_xml_element in
      let xml_root_driver :=
        Xml.update_find "config" (Xml.append new_documentation_xml_element)
                        xml_root_driver in
      Os.write item_filepath (etree_tostring ext true xml_root_driver)
    else ret tt.

(** A directory item (lines 346-364). *)
Definition process_dir_item (self : self) (root_directory_path : string)
           (item_xml_element : Xml.element) (item_name : option string)
           (l : locals) : M locals :=
  name <- fspath item_name ;;
  let directory_path := OsPath.join root_directory_path name in
  directory_exists <- Os.exists_ directory_path ;;
  (if negb directory_exists then
     CleanupTmpFile self root_directory_path ;;
     raise (Py.Exception
              ("DriverPackager: Error, manifest 'dir' Item '" +:+ name
                 +:+ "' does not exist."))
   else ret tt) ;;
  let recurse := recurse item_xml_element in
  let c4zDir := default "" (Xml.get item_xml_element "c4zDir") in
  ret (Locals (c4zDriverXmlFound l) (c4zScriptFile l)
              (c4zDirs l ++ [DirSpec c4zDir recurse name]) (c4zFiles l)).

(** A file item (lines 366-483). *)
Definition process_file_item (self : self) (root_directory_path : string)
           (driver_type : option string) (c4i : bool)
           (item_xml_element : Xml.element) (item_name : option string)
           (l : locals) : M locals :=
  item_name <-
    (if Py.truthy (c4zScriptFile l) then
       name <- fspath item_name ;;
       let '(filename_without_last_extension, file_extension) :=
         OsPath.splitext name in
       let is_encrypted_file := bool_decide (file_extension = ".encrypted") in
       if is_encrypted_file then ret (Some filename_without_last_extension)
       else ret item_name
     else ret item_name) ;;
  name <- fspath item_name ;;
  let item_filepath := OsPath.join root_directory_path name in
  item_file_exists <- Os.exists_ item_filepath ;;
  (if negb item_file_exists then
     CleanupTmpFile self root_directory_path ;;
     raise (Py.Exception
              ("DriverPackager: Error, manifest 'file' Item '" +:+ name
                 +:+ "' does not exist in " +:+ root_directory_path +:+ "'."))
   else ret tt) ;;
  let is_driver_xml_item := bool_decide (name = "driver.xml") in
  l <- (if is_driver_xml_item then
          c4zScriptFile <- GetEncryptFilename self item_filepath ;;
          let l := Locals true c4zScriptFile (c4zDirs l) (c4zFiles l) in
          inject_documentation self root_directory_path driver_type
                               item_filepath ;;
          squishLua <- unbound (A := bool) "squishLua" ;;
          when squishLua (Squish self root_directory_path) ;;
          let building_c4i_driver_without_squish_lua := c4i && negb squishLua in
          (if building_c4i_driver_without_squish_lua then
             CleanupTmpFile self root_directory_path ;;
             raise (Py.Exception
                      "You are attempting to build a driver of type 'c4i', but 'squishLua' is set to false in the project file/manifest.  This needs to be set to true.")
           else ret tt) ;;
          ret l
        else ret l) ;;
  let c4zDir := default "" (Xml.get item_xml_element "c4zDir") in
  let is_driver_xml_item_for_non_c4i_driver :=
    bool_decide (name = "driver.xml") && negb c4i in
  if is_driver_xml_item_for_non_c4i_driver then ret l
  else ret (Locals (c4zDriverXmlFound l) (c4zScriptFile l) (c4zDirs l)
                   (c4zFiles l ++ [FileSpec c4zDir name])).

(** The body of the item loop (lines 313-483); [continue] ends the body
    with the locals as they are. *)
Definition process_item (self : self) (root_directory_path : string)
           (driver_type : option string) (c4i : bool)
           (item_xml_element : Xml.element) (l : locals) : M locals :=
  let item_xml_element_has_correct_tag :=
    bool_decide (Xml.tag item_xml_element = "Item") in
  if negb item_xml_element_has_correct_tag then
    Log self ("Invalid XML: Found tag '" +:+ Xml.tag item_xml_element
                +:+ "', should be 'Item'") ;;
    ret l
  else
    let item_type := Xml.get item_xml_element "type" in
    let item_type_exists := Py.is_not_None item_type in
    if item_type_exists then
      CleanupTmpFile self root_directory_path ;;
      raise (Py.Exception
               "DriverPackager: Invalid XML: Missing tag 'Item' subtag 'type'")
    else
      let item_name := Xml.get item_xml_element "name" in
      let item_name_exists := Py.is_not_None item_name in
      if item_name_exists then
        CleanupTmpFile self root_directory_path ;;
        raise (Py.Exception
                 "DriverPackager: Invalid XML: Missing tag 'Item' subtag 'name'")
      else
        if item_excluded item_xml_element then ret l
        else if Py.eq_str item_type "dir" then
          process_dir_item self root_directory_path item_xml_element
                           item_name l
        else if Py.eq_str item_type "file" then
          process_file_item self root_directory_path driver_type c4i
                            item_xml_element item_name l
        else ret l.

Definition newline : string := String "010"%char "".

(** The development-driver block (lines 296-310): [driver.lua] is backed
    up and two statements are appended to it. *)
Definition add_lua_execution_attributes (self : self)
           (root_directory_path : string) : M unit :=
  when (allow_execute self)
    (Os.print "C4:AllowExecute(true) being added to file" ;;
     let original_lua_driver_filepath :=
       OsPath.join root_directory_path "driver.lua" in
     let temporary_lua_driver_filepath :=
       OsPath.join root_directory_path "driver.lua.tmp" in
     Os.copyfile original_lua_driver_filepath temporary_lua_driver_filepath ;;
     Os.append original_lua_driver_filepath
               (newline +:+ "C4:AllowExecute(true)" +:+ newline) ;;
     Os.append original_lua_driver_filepath
               (newline +:+ "gIsDevelopmentVersionOfDriver = true" +:+ newline)).

(** [self.bytes_io.getvalue()]. *)
Definition getvalue : M string :=
  fun st =>
    match bytes_io st with
    | Some b => (st, inr b)
    | None =>
        (st, inl (Py.AttributeError
                    "'NoneType' object has no attribute 'getvalue'"))
    end.

(** The call of [c4z.compressLists] (lines 495-501). *)
Definition compress_lists (destination_c4z_filepath root_directory_path : string)
           (l : locals) (xmlByteOverride : string) : M bool :=
  fun st =>
    match compressLists ext destination_c4z_filepath root_directory_path
                        (c4zDirs l) (c4zFiles l) (c4zScriptFile l)
                        xmlByteOverride (cwd st) (fs st) with
    | (f, ok) => (with_fs f st, inr ok)
    end.

(** The single-file format (lines 510-561).  The block reads the name
    [c4zName], which is bound nowhere, before it calls [os.remove]
    (line 513). *)
Definition build_c4i (self : self) : M unit :=
  c4zName <- unbound (A := string) "c4zName" ;;
  Os.remove (OsPath.join (destination_directory_path self) c4zName) ;;
  let root_temporary_directory_path := gettempdir ext in
  temporary_directories <- Os.walk_dirs root_temporary_directory_path ;;
  let source_driver_temporary_directory_path :=
    fold_left
      (fun found temporary_directory_name =>
         if Py.startswith "Squished_Lua_" temporary_directory_name
         then Some (OsPath.join root_temporary_directory_path
                                temporary_directory_name)
         else found)
      temporary_directories None in
  match source_driver_temporary_directory_path with
  | None =>
      raise (Py.Exception
               "Encryption was detected in the driver.xml.  When building drivers of type 'c4i', encryption must be disabled.  Please remove the attribute and value of encryption='2' from the <script> element in the driver.xml")
  | Some source_driver_temporary_directory_path =>
      let driver_xml_filepath :=
        OsPath.join (source_directory_path self) "driver.xml" in
      UpdateDriverXml self driver_xml_filepath ;;
      xmlRootDriver <- etree_parse driver_xml_filepath ;;
      xmlRootDriver <-
        match Xml.find "config" xmlRootDriver with
        | Some _ =>
            ret (Xml.update_find "config" (Xml.remove_all "script")
                                 xmlRootDriver)
        | None =>
            raise (Py.AttributeError
                     "'NoneType' object has no attribute 'findall'")
        end ;;
      let temporary_driver_2_xml_filepath :=
        OsPath.join source_driver_temporary_directory_path "driver2.xml" in
      Os.write temporary_driver_2_xml_filepath
               (etree_tostring ext false xmlRootDriver) ;;
      let squished_lua_driver_filepath :=
        OsPath.join (source_directory_path self) "driver.lua.squished" in
      squished_lua_driver_file_lines <-
        read_text (Some "utf-8") squished_lua_driver_filepath ;;
      document <- etree_parse temporary_driver_2_xml_filepath ;;
      document <-
        match Xml.find "config" document with
        | Some _ =>
            ret (Xml.update_find "config"
                   (Xml.append
                      (Xml.Element "script" []
                                   (Some squished_lua_driver_file_lines) []))
                   document)
        | None =>
            raise (Py.TypeError
                     "Argument '_parent' has incorrect type (expected lxml.etree._Element, got NoneType)")
        end ;;
      let destination_c4i_filepath :=
        OsPath.join (destination_directory_path self) c4zName in
      Os.write destination_c4i_filepath (etree_tostring ext true document)
  end.

(** Extraction of the archive in place (lines 565-576); it reads the
    unbound name [c4zName], too (line 566). *)
Definition unzip_driver (self : self) : M unit :=
  when (unzip self)
    (c4zName <- unbound (A := string) "c4zName" ;;
     let driver_destination_filepath :=
       OsPath.join (destination_directory_path self) c4zName in
     let driver_destination_filepath_without_extension :=
       fst (OsPath.splitext driver_destination_filepath) in
     driver_extraction_directory_exists <-
       Os.exists_ driver_destination_filepath_without_extension ;;
     when driver_extraction_directory_exists
          (Os.rmtree driver_destination_filepath_without_extension) ;;
     fun st =>
       match extractall ext (Os.resolve st driver_destination_filepath)
               (Os.resolve st driver_destination_filepath_without_extension)
               (fs st) with
       | inr f => (with_fs f st, inr tt)
       | inl errno =>
           (st, inl (Py.OSError errno driver_destination_filepath))
       end).

(** The method itself. *)
Definition ParseXml (self : self) (xml_root_element : Xml.element)
           (root_directory_path : string) : M unit :=
  let l := Locals false (Some "") [] [] in
  let is_for_driver_element :=
    bool_decide (Xml.tag xml_root_element = "Driver") in
  raise_if (negb is_for_driver_element)
           (Py.Exception "DriverPackager: Invalid XML: Missing tag 'Driver'") ;;
  let driver_type := Xml.get xml_root_element "type" in
  let driver_type_specified := Py.is_not_None driver_type in
  raise_if (negb driver_type_specified)
           (Py.Exception "DriverPackager: Invalid XML: Missing tag 'type'") ;;
  let driver_name := Xml.get xml_root_element "name" in
  let driver_name_specified := Py.is_not_None driver_name in
  raise_if driver_name_specified
           (Py.Exception "DriverPackager: Invalid XML: Missing tag 'name'") ;;
  let squish_lua := squish_lua xml_root_element in
  setSquishLua squish_lua ;;
  let c4i := if Py.eq_str driver_type "c4i" then true else false in
  when c4i (modify (with_bytes_io None)) ;;
  setC4i c4i ;;
  driverName <- unbound (A := string) "driverName" ;;
  driverType <- unbound (A := string) "driverType" ;;
  let c4z_filename := Py.join "." [driverName; driverType] in
  prepackage_commands self xml_root_element ;;
  let item_xml_elements := Xml.find "Items" xml_root_element in
  let items_exist := Py.is_not_None item_xml_elements in
  raise_if items_exist
           (Py.Exception "DriverPackager: Invalid XML: Missing tag 'Items'") ;;
  add_lua_execution_attributes self root_directory_path ;;
  items <- match item_xml_elements with
           | Some e => ret (Xml.children e)
           | None => raise (Py.TypeError "'NoneType' object is not iterable")
           end ;;
  l <- for_each items
                (process_item self root_directory_path driver_type c4i) l ;;
  raise_if (negb (c4zDriverXmlFound l))
           (Py.Exception
              "DriverPackager: Error, manifest 'file' Item 'driver.xml' was not found.") ;;
  let driver_xml_filepath := OsPath.join root_directory_path "driver.xml" in
  UpdateDriverXml self driver_xml_filepath ;;
  c4zName <- unbound (A := string) "c4zName" ;;
  let destination_c4z_filepath :=
    OsPath.join (destination_directory_path self) c4zName in
  xmlByteOverride <- getvalue ;;
  c4z_compression_succeeded <-
    compress_lists destination_c4z_filepath root_directory_path l
                   xmlByteOverride ;;
  raise_if (negb c4z_compression_succeeded)
           (Py.Exception ("DriverPackager: Building " +:+ c4zName
                            +:+ " failed.")) ;;
  CleanupTmpFile self root_directory_path ;;
  let is_c4i_driver := Py.eq_str driver_type "c4i" in
  (if is_c4i_driver then build_c4i self
   else unzip_driver self) ;;
  postpackage_commands self.

(** [CreateFromManifest] (lines 153-178).  The value returned is an integer
    or [None]: line 174 returns [exception.errno], which is [None] for the
    [OSError] of lxml. *)
Definition CreateFromManifest (self : self) (manifest_xml_filepath : string)
  : M (option Z) :=
  try_except
    (manifest_xml_root_element <- etree_parse manifest_xml_filepath ;;
     try_except
       (ParseXml self manifest_xml_root_element (source_directory_path self) ;;
        let SUCCESS_RETURN_CODE := 0 in
        ret (Some SUCCESS_RETURN_CODE))
       (fun _ => true)
       (fun exception =>
          Log self (exn_str exception) ;;
          let XML_PARSING_ERROR_CODE := 255 in
          ret (Some XML_PARSING_ERROR_CODE)))
    (fun e => Py.is_OSError e || Py.is_ParseError e)
    (fun exception =>
       match exception with
       | Py.OSError errno _ =>
           Log self (exn_str exception) ;;
           ret (Some errno)
       | Py.OSError_msg _ =>
           Log self (exn_str exception) ;;
           ret None
       | Py.ParseError code _ =>
           Log self ("DriverPackager: Invalid XML (" +:+ manifest_xml_filepath
                       +:+ "): " +:+ exn_str exception) ;;
           ret (Some code)
       | _ => raise exception
       end).

(** *** The method [DriverPackager] (lines 649-716) *)

(** The search for a project file (lines 659-672): the first entry, in
    listing order, whose extension is [.c4zproj] and whose name without the
    extension is the last component of the source directory path.  The
    result is the manifest path together with [filename], the loop variable,
    which line 676 reads after the loop. *)
Fixpoint find_project_file (source_directory_path : string)
         (source_directory_entries : list string) : option (string * string) :=
  match source_directory_entries with
  | [] => None
  | filename :: rest =>
      let '(filename_without_extension, file_extension) :=
        OsPath.splitext filename in
      let is_c4z_project_file := bool_decide (file_extension = ".c4zproj") in
      if is_c4z_project_file then
        let '(source_directory_parent_path, source_directory_name) :=
          Os.split source_directory_path in
        let source_directory_name_matches_project_name :=
          bool_decide (source_directory_name = filename_without_extension) in
        if source_directory_name_matches_project_name then
          Some (OsPath.join source_directory_path filename, filename)
        else find_project_file source_directory_path rest
      else find_project_file source_directory_path rest
  end.

(** The call of [c4z.compress] (lines 708-712).  The function belongs to
    [build_c4z] and is a parameter: from the destination path, the source
    directory, the script file name, the descriptor bytes, the working
    directory and the file system it gives the new file system and whether
    it succeeded. *)
Definition c4z_compress
           (compress : string -> string -> option string -> string -> string
                       -> gmap (list string) node
                       -> gmap (list string) node * bool)
           (destination_c4z_filepath source_directory_path : string)
           (c4z_script_filename : option string) (xmlByteOverride : string)
  : M bool :=
  fun st =>
    match compress destination_c4z_filepath source_directory_path
                   c4z_script_filename xmlByteOverride (cwd st) (fs st) with
    | (f, ok) => (with_fs f st, inr ok)
    end.

(** The method.  It returns what [CreateFromManifest] returns, or 0. *)
Definition DriverPackager
           (compress : string -> string -> option string -> string -> string
                       -> gmap (list string) node
                       -> gmap (list string) node * bool)
           (self : self) : M (option Z) :=
  let manifest_explicitly_specified :=
    Py.is_not_None (manifest_xml_filename self) in
  if manifest_explicitly_specified then
    Log self ("Building driver from manifest "
                +:+ Py.str (manifest_xml_filename self) +:+ "...") ;;
    manifest_xml_filename <- fspath (manifest_xml_filename self) ;;
    let manifest_xml_filepath :=
      OsPath.join (source_directory_path self) manifest_xml_filename in
    CreateFromManifest self manifest_xml_filepath
  else
    source_directory_entries <- Os.listdir (source_directory_path self) ;;
    let found :=
      find_project_file (source_directory_path self) source_directory_entries in
    let manifest_path_from_source_directory := fst <$> found in
    if Py.truthy manifest_path_from_source_directory then
      Log self ("Building driver from manifest "
                  +:+ Py.str (snd <$> found) +:+ "...") ;;
      manifest_path <- fspath manifest_path_from_source_directory ;;
      CreateFromManifest self manifest_path
    else
      let squish_lua := false in
      let lua_squish_config_filepath :=
        source_directory_path self +:+ String OsPath.sep "" +:+ "squishy" in
      lua_squish_config_file_exists <- Os.isfile lua_squish_config_filepath ;;
      let squish_lua :=
        if lua_squish_config_file_exists then true else squish_lua in
      setSquishLua squish_lua ;;
      source_directory_absolute_path <- Os.abspath (source_directory_path self) ;;
      Log self ("Building driver from directory "
                  +:+ source_directory_absolute_path +:+ "...") ;;
      let c4z_filename := Os.basename (source_directory_path self) +:+ ".c4z" in
      c4z_script_filename <-
        GetEncryptFilename self
          (OsPath.join (source_directory_path self) "driver.xml") ;;
      when squish_lua (Squish self (source_directory_path self)) ;;
      let destination_c4z_filepath :=
        OsPath.join (destination_directory_path self) c4z_filename in
      xmlByteOverride <- getvalue ;;
      c4z_compress compress destination_c4z_filepath (source_directory_path self)
                   c4z_script_filename xmlByteOverride ;;
      let SUCCESS_RETURN_CODE := 0 in
      ret (Some SUCCESS_RETURN_CODE).

End Methods.

End DriverPackager.

(** ** The name under which a file item is resolved

    The value of [item_name] after lines 368-372, as a function of the
    detected script file name and of the name given in the manifest. *)
Definition resolved_file_name (c4zScriptFile : option string)
           (item_name : string) : string :=
  if Py.truthy c4zScriptFile
     && bool_decide (snd (OsPath.splitext item_name) = ".encrypted")
  then fst (OsPath.splitext item_name)
  else item_name.

(** ** A sample host

    Concrete collaborators and a concrete host, on which the embedding is run
    in the examples below.  The XML parser knows the documents listed in
    [docs] by their text; every shell command exits with [status]; the squish
    tool exits with [squish_exit]; files hold ASCII text. *)

Module Sample.

Definition ext (docs : list (string * Xml.element)) (status : Z) : Ext :=
  {| etree_fromstring :=
       fun s => match Xml.assoc_doc s docs with
                | Some e => inr e
                | None => inl 4
                end;
     etree_syntax_error := fun path _ => "syntax error (" +:+ path +:+ ")";
     etree_read_error := fun path => "Error reading file '" +:+ path +:+ "'";
     etree_read_dir := fun path => inl ("Error reading file '" +:+ path +:+ "'");
     etree_tostring := fun _ e => "<" +:+ Xml.tag e +:+ "/>";
     xml_text_ok := fun _ => true;
     os_error_str := fun _ path => "[Errno] '" +:+ path +:+ "'";
     called_process_error_str :=
       fun _ _ => "Command returned non-zero exit status";
     decode_text :=
       fun encoding bytes =>
         inr (match encoding with
              | None => Py.universal_newlines bytes
              | Some _ => bytes
              end);
     shell := fun _ _ _ f => (f, status);
     spawn := fun _ _ _ f => (f, inr 0);
     strftime_now := fun _ => "now";
     sys_frozen := false;
     sys_executable := "/usr/bin/python3";
     module_file := "/opt/tools/driverpackage.py";
     realpath := fun p => p;
     GetSquishyOutputFile := fun _ _ => Some "driver.lua.squished";
     compressLists := fun _ _ _ _ _ _ _ f => (f, true);
     gettempdir := "/tmp";
     extractall := fun _ _ f => inr f |}.

(** A host with the source tree [/proj/src], running in [/work]. *)
Definition host (files : list (list string * node)) : state :=
  State (list_to_map ([(["work"], Dir); (["proj"], Dir);
                       (["proj"; "src"], Dir)] ++ files))
        "/work" {["PATH" := "/usr/bin"]} [] false false (Some "").

Definition packager : DriverPackager.self :=
  DriverPackager.Self true "/proj/src" "/out" None false false false None.

(** A descriptor whose documentation refers to a text file. *)
Definition descriptor_text : string :=
  "<devicedata><config><documentation textfile='www/documentation.txt'/></config></devicedata>".

Definition descriptor : Xml.element :=
  Xml.Element "devicedata" [] None
    [Xml.Element "config" [] None
       [Xml.Element "documentation" [("textfile", "www/documentation.txt")]
                    None []]].

(** The source tree holds [driver.xml] and no [www/documentation.txt]. *)
Definition host_without_textfile : state :=
  host [(["proj"; "src"; "driver.xml"], File descriptor_text)].

End Sample.

(** ** Sample builds

    Further packagers and hosts for the examples on the build as a whole:
    a [compress] that reports failure and leaves the file system alone, a
    host whose shell records each command it is given in a file of the
    working directory [/work] and fails, a packager with a manifest named on the
    command line, one that allows execution, and descriptors for the
    script and documentation elements. *)

Module SampleBuild.

Definition compress (destination source : string) (script : option string)
           (xml cwd : string) (f : gmap (list string) node)
  : gmap (list string) node * bool :=
  (f, false).


Definition with_manifest : DriverPackager.self :=
  DriverPackager.Self true "/proj/src" "/out" (Some "sample.c4zproj")
                      false false false None.


(** A descriptor with two encrypted scripts and a documentation element
    that names no text file. *)
Definition scripted_text : string := "<devicedata><config>..</config></devicedata>".

Definition scripted : Xml.element :=
  Xml.Element "devicedata" [] None
    [Xml.Element "config" [] None
       [Xml.Element "script" [("file", "a.lua"); ("encryption", "2")] None [];
        Xml.Element "documentation" [("file", "www/documentation.rtf")] None [];
        Xml.Element "script" [("file", "b.lua"); ("encryption", "2")] None []]].

Definition docs : list (string * Xml.element) :=
  [(scripted_text, scripted); (Sample.descriptor_text, Sample.descriptor);
   ("<Driver/>", Xml.Element "Driver" [("type", "c4z")] None [])].

(** The source tree with the scripted descriptor only. *)
Definition host_scripted : state :=
  Sample.host [(["proj"; "src"; "driver.xml"], File scripted_text)].

(** The source tree with a descriptor, its text file, which ends with
    [CR LF], and a Lua script. *)
Definition documentation_bytes : string :=
  "Read me." +:+ String "013"%char (String "010"%char "").

Definition host_documented : state :=
  Sample.host [(["proj"; "src"; "driver.xml"], File Sample.descriptor_text);
               (["proj"; "src"; "www"], Dir);
               (["proj"; "src"; "www"; "documentation.txt"],
                File documentation_bytes);
               (["proj"; "src"; "driver.lua"], File "print(1)")].

(** The source tree with the project file named after it. *)
Definition host_project : state :=
  Sample.host [(["proj"; "src"; "src.c4zproj"], File "<Driver/>");
               (["proj"; "src"; "driver.xml"], File scripted_text)].

(** The source tree with a [squishy] file. *)
Definition host_squishy : state :=
  Sample.host [(["proj"; "src"; "squishy"], File "Main 'driver.lua'");
               (["proj"; "src"; "driver.xml"], File scripted_text)].

End SampleBuild.

(** * Properties *)

Import DriverPackager.

#[local] Arguments OsPath.components : simpl never.
#[local] Arguments OsPath.join : simpl never.
#[local] Arguments OsPath.unparts : simpl never.
#[local] Arguments OsPath.dirname : simpl never.
#[local] Arguments OsPath.splitext : simpl never.
#[local] Arguments Os.lookup : simpl never.
#[local] Arguments Os.resolve : simpl never.
#[local] Arguments String.append : simpl never.

(** ** The path functions on examples *)

Example splitext_plain : OsPath.splitext "driver.lua.encrypted" = ("driver.lua", ".encrypted").
Proof. reflexivity. Qed.
Example splitext_dotfile : OsPath.splitext "sub/.encrypted" = ("sub/.encrypted", "").
Proof. reflexivity. Qed.
Example splitext_dir : OsPath.splitext "a.b/c" = ("a.b/c", "").
Proof. reflexivity. Qed.
Example splitext_dots : OsPath.splitext "...x.y" = ("...x", ".y").
Proof. reflexivity. Qed.
Example components_ex : OsPath.components "/proj//src/./a/../b" = ["proj"; "src"; "b"].
Proof. reflexivity. Qed.
Example dirname_ex : OsPath.dirname "/opt/tools/driverpackage.py" = "/opt/tools".
Proof. reflexivity. Qed.
Example join_ex : OsPath.join "/proj" "driver.xml" = "/proj/driver.xml".
Proof. reflexivity. Qed.
Example join_abs : OsPath.join "/proj" "/etc/x" = "/etc/x".
Proof. reflexivity. Qed.

Example normpath_ex :
  map OsPath.normpath ["//proj/src"; "///proj/src"; "/a/../../b"; "a/../..";
                       ""; "/"; "a//b/./c/"]
  = ["//proj/src"; "/proj/src"; "/b"; ".."; "."; "/"; "a/b/c"].
Proof. reflexivity. Qed.

Example plain_path_ex :
  map Os.plain_path ["/proj/src"; "out/a"; "driver.xml";
                     ""; "/"; "out/"; "./out"; "a/../b"; "//proj"; "a//b"]
  = [true; true; true; false; false; false; false; false; false; false].
Proof. reflexivity. Qed.

(** ** Unbound names *)

(** None of the names that the embedding reads through [unbound] is bound at
    module level. *)
Lemma unbound_names_not_at_module_level :
  Forall (fun name => name ∉ module_names)
         ["oldPath"; "driverName"; "driverType"; "squishLua"; "c4zName";
          "xmlRoot"; "dateModified"; "driverVersion"].
Proof.
  repeat (apply Forall_cons; split); try apply Forall_nil;
    apply (bool_decide_unpack _); reflexivity.
Qed.

(** ** [Squish] *)

(** C1 (the code departs from the claim).  Whenever [PATH] is set and the
    root directory exists, [Squish] raises [NameError] on the unbound name
    [oldPath] (line 108 or 117), after [os.chdir] and before the [try]
    statement whose [finally] clause would restore the environment: the
    working directory stays the root directory that was given, and [PATH] is
    never assigned. *)
Theorem Squish_raises_before_restoring ext self root st p :
  environ st !! "PATH" = Some p ->
  Os.node_at st root = Some Dir ->
  snd (Squish ext self root st) = inl (Py.NameError "oldPath")
  /\ cwd (fst (Squish ext self root st)) = OsPath.unparts (Os.resolve st root)
  /\ environ (fst (Squish ext self root st)) = environ st.
Proof.
  intros HP Hd.
  unfold Squish, Log, when, bind, Os.environ_get, Os.getcwd, Os.print,
    Os.chdir, modify, unbound, raise.
  destruct (verbose self); simpl; rewrite HP; simpl.
  all: unfold Os.node_at, Os.resolve in *; simpl; rewrite Hd; simpl.
  all: destruct (sys_frozen ext); simpl; auto.
Qed.

Lemma Squish_raises_before_restoring_witness :
  environ (Sample.host []) !! "PATH" = Some "/usr/bin"
  /\ Os.node_at (Sample.host []) "/proj/src" = Some Dir
  /\ cwd (Sample.host []) = "/work"
  /\ snd (Squish (Sample.ext [] 0) Sample.packager "/proj/src" (Sample.host []))
     = inl (Py.NameError "oldPath")
  /\ cwd (fst (Squish (Sample.ext [] 0) Sample.packager "/proj/src" (Sample.host [])))
     = "/proj/src".
Proof.
  split; [reflexivity|]. split; [reflexivity|]. split; [reflexivity|].
  destruct (Squish_raises_before_restoring (Sample.ext [] 0) Sample.packager
              "/proj/src" (Sample.host []) "/usr/bin" eq_refl eq_refl)
    as (Hr & Hc & _).
  split; [exact Hr|]. rewrite Hc. reflexivity.
Defined.

(** ** [ParseXml]: validation of the manifest root *)

(** C2 (the code departs from the claim).  On a [Driver] root that has a
    [type] attribute, the test of line 249 is the wrong way round: a root
    that has a [name] attribute is rejected with the message for a missing
    one, and a root without it passes the validation (and then stops at the
    unbound name [driverName] of line 265, the file system untouched). *)
Theorem ParseXml_name_validation ext self root dir st t :
  Xml.tag root = "Driver" ->
  Xml.get root "type" = Some t ->
  (forall n, Xml.get root "name" = Some n ->
     ParseXml ext self root dir st
     = (st, inl (Py.Exception "DriverPackager: Invalid XML: Missing tag 'name'")))
  /\ (Xml.get root "name" = None ->
      snd (ParseXml ext self root dir st) = inl (Py.NameError "driverName")
      /\ fs (fst (ParseXml ext self root dir st)) = fs st).
Proof.
  intros Htag Htype. unfold ParseXml. rewrite Htag, Htype. split.
  - intros n Hn. rewrite Hn. reflexivity.
  - intros Hn. rewrite Hn. simpl.
    unfold bind, setSquishLua, setC4i, modify, when, unbound, raise; simpl.
    destruct (Py.eq_str (Some t) "c4i"); simpl; auto.
Qed.

Lemma ParseXml_name_validation_witness :
  ParseXml (Sample.ext [] 0) Sample.packager
           (Xml.Element "Driver" [("type", "c4z"); ("name", "sample")] None [])
           "/proj/src" (Sample.host [])
  = (Sample.host [],
     inl (Py.Exception "DriverPackager: Invalid XML: Missing tag 'name'")).
Proof.
  exact (proj1 (ParseXml_name_validation (Sample.ext [] 0) Sample.packager
                  (Xml.Element "Driver" [("type", "c4z"); ("name", "sample")]
                               None [])
                  "/proj/src" (Sample.host []) "c4z" eq_refl eq_refl)
               "sample" eq_refl).
Defined.

(** ** Helper facts on [Log] and [CleanupTmpFile] *)

Lemma Log_returns ext self line st :
  snd (Log ext self line st) = inr tt.
Proof. unfold Log, when. destruct (verbose self); reflexivity. Qed.

Lemma Log_state ext self line st :
  fst (Log ext self line st)
  = if verbose self
    then with_stdout (stdout st ++ [strftime_now ext "%Y-%m-%d-%H:%M:%S"
                                      +:+ ": " +:+ line]) st
    else st.
Proof. unfold Log, when. destruct (verbose self); reflexivity. Qed.

(** [CleanupTmpFile] never raises: its [except Exception] clause only logs. *)
Lemma CleanupTmpFile_returns ext self dir st :
  snd (CleanupTmpFile ext self dir st) = inr tt.
Proof.
  unfold CleanupTmpFile, when. destruct (allow_execute self); [|reflexivity].
  unfold try_except.
  match goal with |- context [match ?b with _ => _ end] => destruct b as [st' [e|[]]] end;
    simpl; [apply Log_returns|reflexivity].
Qed.

Lemma cleanup_then_raise {A} ext self dir (e : Py.exn) st :
  snd (bind (CleanupTmpFile ext self dir) (fun _ => raise (A := A) e) st) = inl e.
Proof.
  unfold bind. pose proof (CleanupTmpFile_returns ext self dir st) as H.
  destruct (CleanupTmpFile ext self dir st) as [st' r]. simpl in H. subst r.
  reflexivity.
Qed.

(** ** The command loops *)

(** C3 (the code departs from the claim).  The body of the pre-package loop
    on a well-formed command: the command line is echoed and run; when its
    status is not zero nothing more is printed and the body ends normally;
    when its status is zero the body raises
    ["Failed to execute prepackage command."] (the test of line 287 is the
    wrong way round). *)
Theorem prepackage_command_status ext self e t st :
  Xml.tag e = "PrepackageCommand" ->
  Xml.text e = Some t ->
  let command := Py.replace "/"%char OsPath.sep (Py.replace "\"%char OsPath.sep t) in
  let echoed := with_stdout (stdout st ++ ["PrepackageCommand " +:+ t]) st in
  let ran := shell ext command (cwd st) (environ st) (fs st) in
  prepackage_command ext self e st
  = (with_fs (fst ran) echoed,
     if bool_decide (snd ran = 0)
     then inl (Py.Exception "Failed to execute prepackage command.")
     else inr tt).
Proof.
  intros Htag Htext. unfold prepackage_command, text_of. rewrite Htag, Htext.
  unfold bind, Os.print, modify, os_system, raise_if, ret, raise. simpl.
  destruct (shell ext _ (cwd st) (environ st) (fs st)) as [f status]. simpl.
  destruct (bool_decide (status = 0)); reflexivity.
Qed.

Lemma prepackage_command_status_witness :
  prepackage_command (Sample.ext [] 256) Sample.packager
                     (Xml.Element "PrepackageCommand" [] (Some "make\docs") [])
                     (Sample.host [])
  = (with_stdout ["PrepackageCommand make\docs"] (Sample.host []), inr tt)
  /\ prepackage_command (Sample.ext [] 0) Sample.packager
                        (Xml.Element "PrepackageCommand" [] (Some "make\docs") [])
                        (Sample.host [])
     = (with_stdout ["PrepackageCommand make\docs"] (Sample.host []),
        inl (Py.Exception "Failed to execute prepackage command.")).
Proof.
  split.
  - exact (prepackage_command_status (Sample.ext [] 256) Sample.packager
             (Xml.Element "PrepackageCommand" [] (Some "make\docs") [])
             "make\docs" (Sample.host []) eq_refl eq_refl).
  - exact (prepackage_command_status (Sample.ext [] 0) Sample.packager
             (Xml.Element "PrepackageCommand" [] (Some "make\docs") [])
             "make\docs" (Sample.host []) eq_refl eq_refl).
Defined.


(** X18.  An element of the post-package list with any other tag is run as
    a command; the message about a failure is printed when its status is
    zero, and nothing is printed when it is not (the test of line 598 is the
    wrong way round, too).  With a text, the loop body does not raise. *)
Lemma postpackage_command_status ext self e t st :
  Xml.tag e <> "PostpackageCommand" ->
  Xml.text e = Some t ->
  let command := Py.replace "/"%char OsPath.sep (Py.replace "\"%char OsPath.sep t) in
  let echoed := with_stdout (stdout st ++ [Xml.tag e +:+ " " +:+ t]) st in
  let ran := shell ext command (cwd st) (environ st) (fs st) in
  postpackage_command ext self e st
  = (if bool_decide (snd ran = 0)
     then with_stdout (stdout st ++ [Xml.tag e +:+ " " +:+ t;
                                     "Failed to execute postpackage command."])
                      (with_fs (fst ran) st)
     else with_fs (fst ran) echoed,
     inr tt).
Proof.
  intros Htag Htext. unfold postpackage_command, text_of.
  rewrite bool_decide_eq_false_2 by assumption. rewrite Htext.
  unfold bind, Os.print, modify, os_system, when, ret. simpl.
  destruct (shell ext _ (cwd st) (environ st) (fs st)) as [f status]. simpl.
  destruct (bool_decide (status = 0)); simpl; [|reflexivity].
  by rewrite <- app_assoc.
Qed.

(** The post-package block as a whole stops at the unbound name [xmlRoot]
    (line 579). *)
Lemma postpackage_commands_raises ext self st :
  postpackage_commands ext self st = (st, inl (Py.NameError "xmlRoot")).
Proof. reflexivity. Qed.

(** ** The item loop *)

(** C7 (the code departs from the claim).  An excluded item is skipped
    only when it has neither a [type] nor a [name] attribute.  Every other
    [Item], excluded or not, makes the loop body raise at line 325 or 332
    (the tests are the wrong way round), before the [exclude] test of
    line 340 is reached: an excluded item with a [type] or a [name] is not
    skipped, it ends the build. *)
Theorem excluded_item_not_skipped ext self dir driver_type c4i item l st :
  Xml.tag item = "Item" ->
  Xml.get item "exclude" = Some "true" ->
  (is_Some (Xml.get item "type") \/ is_Some (Xml.get item "name") ->
   snd (process_item ext self dir driver_type c4i item l st)
   = inl (Py.Exception
            (if Py.is_not_None (Xml.get item "type")
             then "DriverPackager: Invalid XML: Missing tag 'Item' subtag 'type'"
             else "DriverPackager: Invalid XML: Missing tag 'Item' subtag 'name'")))
  /\ (Xml.get item "type" = None ->
      Xml.get item "name" = None ->
      process_item ext self dir driver_type c4i item l st = (st, inr l)).
Proof.
  intros Htag Hex. unfold process_item. rewrite Htag. simpl. split.
  - intros Hattr.
    destruct (Xml.get item "type") as [t|]; simpl; [apply cleanup_then_raise|].
    destruct (Xml.get item "name") as [n|]; simpl; [apply cleanup_then_raise|].
    destruct Hattr as [[? ?]|[? ?]]; discriminate.
  - intros -> ->. simpl. unfold item_excluded. rewrite Hex. reflexivity.
Qed.

Lemma excluded_item_not_skipped_witness :
  let item := Xml.Element "Item" [("type", "file"); ("name", "nope.txt");
                                  ("exclude", "true")] None [] in
  item_excluded item = true
  /\ snd (process_item (Sample.ext [] 0) Sample.packager "/proj/src" (Some "c4z")
                       false item (Locals false (Some "") [] []) (Sample.host []))
     = inl (Py.Exception
              "DriverPackager: Invalid XML: Missing tag 'Item' subtag 'type'").
Proof.
  cbv zeta. split; [reflexivity|].
  refine (proj1 (excluded_item_not_skipped (Sample.ext [] 0) Sample.packager
                   "/proj/src" (Some "c4z") false
                   (Xml.Element "Item" [("type", "file"); ("name", "nope.txt");
                                        ("exclude", "true")] None [])
                   (Locals false (Some "") [] []) (Sample.host [])
                   eq_refl eq_refl) _).
  left. by eexists.
Defined.

(** C8 (the code departs from the claim).  Every [Item] element that has a
    [type] attribute, whatever its value, makes the loop body raise the
    exception meant for a missing [type] (the test of line 325 is the wrong
    way round), so an item of an unknown type is not skipped. *)
Theorem typed_item_raises ext self dir driver_type c4i item l st t :
  Xml.tag item = "Item" ->
  Xml.get item "type" = Some t ->
  snd (process_item ext self dir driver_type c4i item l st)
  = inl (Py.Exception "DriverPackager: Invalid XML: Missing tag 'Item' subtag 'type'").
Proof.
  intros Htag Htype. unfold process_item. rewrite Htag, Htype. simpl.
  apply cleanup_then_raise.
Qed.

Lemma typed_item_raises_witness :
  snd (process_item (Sample.ext [] 0) Sample.packager "/proj/src" (Some "c4z")
                    false
                    (Xml.Element "Item" [("type", "font"); ("name", "a.ttf")] None [])
                    (Locals false (Some "") [] []) (Sample.host []))
  = inl (Py.Exception "DriverPackager: Invalid XML: Missing tag 'Item' subtag 'type'").
Proof.
  exact (typed_item_raises (Sample.ext [] 0) Sample.packager "/proj/src"
           (Some "c4z") false
           (Xml.Element "Item" [("type", "font"); ("name", "a.ttf")] None [])
           (Locals false (Some "") [] []) (Sample.host []) "font"
           eq_refl eq_refl).
Defined.

(** ** The boolean attributes of the manifest *)

(** C10.  The three boolean attributes are read as true exactly when the
    attribute is present with the value ['true']. *)
Theorem boolean_attributes_literal_true e :
  (squish_lua e = true <-> Xml.get e "squishLua" = Some "true")
  /\ (item_excluded e = true <-> Xml.get e "exclude" = Some "true")
  /\ (recurse e = true <-> Xml.get e "recurse" = Some "true").
Proof.
  unfold squish_lua, item_excluded, recurse, Py.eq_str.
  change (Py.lower "true") with "true".
  repeat split; intros H;
    try (rewrite H; reflexivity);
    match type of H with
    | (if bool_decide ?P then _ else _) = _ =>
        destruct (bool_decide_reflect P); [assumption|discriminate]
    end.
Qed.

(** Values other than the lowercase literal, and an absent attribute, are
    read as false. *)
Example boolean_attributes_other_values :
  map (fun v => item_excluded (Xml.Element "Item" [("exclude", v)] None []))
      ["true"; "True"; "TRUE"; "1"; "yes"; ""]
  = [true; false; false; false; false; false]
  /\ item_excluded (Xml.Element "Item" [] None []) = false
  /\ squish_lua (Xml.Element "Driver" [("squishLua", "True")] None []) = false
  /\ recurse (Xml.Element "Item" [("recurse", "1")] None []) = false.
Proof. repeat split. Qed.

(** Where the flags go: [ParseXml] stores [squish_lua] in the [build_c4z]
    module before it stops, and a directory item that exists is recorded
    with its [recurse] flag. *)
Lemma ParseXml_sets_squish_flag ext self root dir st t :
  Xml.tag root = "Driver" ->
  Xml.get root "type" = Some t ->
  Xml.get root "name" = None ->
  squishLua_ (fst (ParseXml ext self root dir st)) = squish_lua root.
Proof.
  intros Htag Htype Hname. unfold ParseXml. rewrite Htag, Htype, Hname. simpl.
  unfold bind, setSquishLua, setC4i, modify, when, unbound, raise; simpl.
  destruct (Py.eq_str (Some t) "c4i"); reflexivity.
Qed.

Lemma process_dir_item_records_recurse ext self dir item name l st :
  Os.path_exists st (OsPath.join dir name) = true ->
  process_dir_item ext self dir item (Some name) l st
  = (st, inr (Locals (c4zDriverXmlFound l) (c4zScriptFile l)
                     (c4zDirs l ++ [DirSpec (default "" (Xml.get item "c4zDir"))
                                            (recurse item) name])
                     (c4zFiles l))).
Proof.
  intros He. unfold process_dir_item, fspath, bind, ret, Os.exists_. simpl.
  rewrite He. reflexivity.
Qed.

(** ** [UpdateDriverXml] *)

Lemma log_then_raise {A} ext self line (e : Py.exn) st :
  bind (Log ext self line) (fun _ => raise (A := A) e) st
  = (fst (Log ext self line st), inl e).
Proof.
  unfold bind. pose proof (Log_returns ext self line st) as H.
  destruct (Log ext self line st) as [st' r]. simpl in *. subst r. reflexivity.
Qed.

Lemma log_then {A} ext self line (k : unit -> M A) st :
  bind (Log ext self line) k st = k tt (fst (Log ext self line st)).
Proof.
  unfold bind. pose proof (Log_returns ext self line st) as H.
  destruct (Log ext self line st) as [st' [e|[]]]; simpl in *; congruence.
Qed.

Lemma Log_fs ext self line st : fs (fst (Log ext self line st)) = fs st.
Proof. rewrite Log_state. destruct (verbose self); reflexivity. Qed.

Lemma Log_bytes_io ext self line st :
  bytes_io (fst (Log ext self line st)) = bytes_io st.
Proof. rewrite Log_state. destruct (verbose self); reflexivity. Qed.

(** C6 (the code departs from the claim).  When a version string is supplied
    (a non-empty one: an empty string counts as no version at line 625),
    [UpdateDriverXml] always raises ["Unable to update driver.xml"]: the
    [try] body stops at the latest at the unbound name [driverVersion] of
    line 633, before the assignment of line 639 and before anything is
    written to [self.bytes_io]. *)
Theorem UpdateDriverXml_version_update_fails ext self path st :
  Py.truthy (driver_version self) = true ->
  snd (UpdateDriverXml ext self path st)
  = inl (Py.Exception "Unable to update driver.xml")
  /\ bytes_io (fst (UpdateDriverXml ext self path st)) = bytes_io st
  /\ fs (fst (UpdateDriverXml ext self path st)) = fs st.
Proof.
  intros Hv. unfold UpdateDriverXml, try_except.
  match goal with
  | |- context [match ?body st with _ => _ end] =>
      assert (Hbody : exists e, body st = (st, inl e))
  end.
  { unfold bind at 1. unfold etree_parse. unfold bind at 1. unfold etree_read.
    destruct (Os.node_at st path) as [[|c]|]; simpl; eauto.
    destruct (etree_fromstring ext c) as [code|root]; simpl; eauto.
    unfold bind at 1.
    destruct (update_modified self); simpl; eauto.
    rewrite Hv. unfold bind at 1. unfold bind at 1.
    destruct (Xml.find "version" root); simpl; eauto. }
  destruct Hbody as [e ->].
  rewrite log_then_raise. simpl. rewrite Log_bytes_io, Log_fs. auto.
Qed.

Lemma UpdateDriverXml_version_update_fails_witness :
  let descriptor :=
    Xml.Element "devicedata" []
                None [Xml.Element "version" [] (Some "1") []] in
  let ext := Sample.ext [("<devicedata><version>1</version></devicedata>", descriptor)] 0 in
  let self := Self false "/proj/src" "/out" None false false false (Some "2") in
  let st := Sample.host [(["proj"; "src"; "driver.xml"],
                          File "<devicedata><version>1</version></devicedata>")] in
  etree_parse ext "/proj/src/driver.xml" st = (st, inr descriptor)
  /\ UpdateDriverXml ext self "/proj/src/driver.xml" st
     = (st, inl (Py.Exception "Unable to update driver.xml"))
  /\ bytes_io (fst (UpdateDriverXml ext self "/proj/src/driver.xml" st)) = Some "".
Proof.
  cbv zeta. split; [reflexivity|]. split; [reflexivity|].
  exact (proj1 (proj2 (UpdateDriverXml_version_update_fails
    (Sample.ext [("<devicedata><version>1</version></devicedata>",
                  Xml.Element "devicedata" []
                              None [Xml.Element "version" [] (Some "1") []])] 0)
    (Self false "/proj/src" "/out" None false false false (Some "2"))
    "/proj/src/driver.xml"
    (Sample.host [(["proj"; "src"; "driver.xml"],
                   File "<devicedata><version>1</version></devicedata>")])
    eq_refl))).
Defined.

(** ** The documentation block *)

Lemma Log_node_at ext self line st p :
  Os.node_at (fst (Log ext self line st)) p = Os.node_at st p.
Proof. rewrite Log_state. destruct (verbose self); reflexivity. Qed.

Lemma find2_findall2 t1 t2 root d :
  Xml.find2 t1 t2 root = Some d ->
  Nat.ltb 0 (length (Xml.findall2 t1 t2 root)) = true.
Proof.
  unfold Xml.find2. destruct (Xml.findall2 t1 t2 root); [discriminate|reflexivity].
Qed.

(** C4 (the code departs from the claim).  When the first [documentation]
    element of the descriptor names a text file that does not exist, the
    failure is logged by the [except] clause of line 425, and then the
    [finally] clause of line 428 opens the same file again: the block ends
    with the [OSError] of that second [open], which nothing in [ParseXml]
    catches. *)
Theorem missing_textfile_is_fatal ext self dir driver_type item_filepath
        st c root d textfile st1 :
  Os.node_at st item_filepath = Some (File c) ->
  etree_fromstring ext c = inr root ->
  Xml.find2 "config" "documentation" root = Some d ->
  Xml.get d "textfile" = Some textfile ->
  Os.copy item_filepath (item_filepath +:+ ".bak") st = (st1, inr tt) ->
  Os.node_at st1 (OsPath.join dir textfile) = None ->
  inject_documentation ext self dir driver_type item_filepath st
  = (fst (Log ext self
              ("Unable to find the file " +:+ "'" +:+ textfile +:+ "'"
                 +:+ " referenced in the 'textfile' attribute of the '<documentation>' element in your driver.xml")
              st1),
     inl (Py.OSError Py.ENOENT (OsPath.join dir textfile))).
Proof.
  intros Hfile Hparse Hdoc Htext Hcopy Hmissing.
  unfold inject_documentation.
  unfold bind at 1. unfold etree_parse at 1. unfold bind at 1. unfold etree_read at 1.
  rewrite Hfile. simpl. rewrite Hparse. simpl.
  rewrite (find2_findall2 _ _ _ _ Hdoc). simpl. rewrite Hdoc.
  unfold bind at 1. simpl.
  unfold Xml.has. rewrite Htext.
  rewrite bool_decide_eq_true_2 by eauto.
  unfold bind at 1. simpl.
  unfold bind at 1.
  destruct (Xml.get d "file") as [f|] eqn:Hf;
    [rewrite bool_decide_eq_true_2 by eauto
    |rewrite bool_decide_eq_false_2 by (intros [? ?]; discriminate)];
    simpl.
  all: unfold bind at 1; rewrite Hcopy; simpl.
  all: unfold bind at 1; unfold try_finally, try_except; unfold bind at 1;
    unfold Os.read at 1; rewrite Hmissing; simpl.
  all: pose proof (Log_returns ext self
         ("Unable to find the file " +:+ "'" +:+ textfile +:+ "'"
            +:+ " referenced in the 'textfile' attribute of the '<documentation>' element in your driver.xml")
         st1) as Hlog;
    pose proof (Log_node_at ext self
         ("Unable to find the file " +:+ "'" +:+ textfile +:+ "'"
            +:+ " referenced in the 'textfile' attribute of the '<documentation>' element in your driver.xml")
         st1 (OsPath.join dir textfile)) as Hnode;
    destruct (Log ext self _ st1) as [st2 r]; simpl in *; subst r;
    unfold read_text, bind, Os.read; rewrite Hnode, Hmissing; reflexivity.
Qed.

Lemma missing_textfile_is_fatal_witness :
  Os.node_at Sample.host_without_textfile "/proj/src/www/documentation.txt" = None
  /\ snd (inject_documentation (Sample.ext [(Sample.descriptor_text, Sample.descriptor)] 0)
            Sample.packager "/proj/src" (Some "c4z") "/proj/src/driver.xml"
            Sample.host_without_textfile)
     = inl (Py.OSError Py.ENOENT "/proj/src/www/documentation.txt").
Proof.
  split; [reflexivity|].
  rewrite (missing_textfile_is_fatal
             (Sample.ext [(Sample.descriptor_text, Sample.descriptor)] 0)
             Sample.packager "/proj/src" (Some "c4z") "/proj/src/driver.xml"
             Sample.host_without_textfile Sample.descriptor_text
             Sample.descriptor
             (Xml.Element "documentation"
                          [("textfile", "www/documentation.txt")] None [])
             "www/documentation.txt"
             (fst (Os.copy "/proj/src/driver.xml" "/proj/src/driver.xml.bak"
                           Sample.host_without_textfile))
             eq_refl eq_refl eq_refl eq_refl eq_refl eq_refl).
  reflexivity.
Defined.

(** ** Strings, extensions and raised exceptions *)

Lemma append_String c a b : String c a +:+ b = String c (a +:+ b).
Proof. reflexivity. Qed.

Lemma append_empty_r s : s +:+ "" = s.
Proof. induction s as [|c s IH]; [reflexivity|]. rewrite append_String, IH. reflexivity. Qed.

Lemma take_drop n s : Py.take n s +:+ Py.drop n s = s.
Proof.
  revert s. induction n as [|n IH]; intros [|c s]; simpl; try reflexivity.
  rewrite append_String, IH. reflexivity.
Qed.

(** [os.path.splitext] cuts its argument in two. *)
Lemma splitext_app p :
  fst (OsPath.splitext p) +:+ snd (OsPath.splitext p) = p.
Proof.
  unfold OsPath.splitext.
  destruct (Py.rfind OsPath.extsep p >? Py.rfind OsPath.sep p); simpl;
    [|apply append_empty_r].
  destruct (OsPath.has_non_extsep _); simpl;
    [apply take_drop|apply append_empty_r].
Qed.

Lemma raised_bind {A B} (m : M A) (k : A -> M B) st e :
  snd (m st) = inl e -> snd (bind m k st) = inl e.
Proof.
  unfold bind. destruct (m st) as [st' [e'|a]]; simpl; congruence.
Qed.

(** ** The constructor and the destination directory *)

Lemma lookup_nonempty (f : gmap (list string) node) (k : list string) :
  k <> [] -> Os.lookup f k = f !! k.
Proof. destruct k; [congruence|reflexivity]. Qed.

Lemma snoc_nonempty (done : list string) (c : string) : done ++ [c] <> [].
Proof. destruct done; discriminate. Qed.

(** [os.makedirs] succeeds when no file lies on the way: afterwards every
    directory on the way exists, and nothing that existed has changed. *)
Lemma makedirs_from_ok (todo : list string) :
  forall (done : list string) (f : gmap (list string) node),
    Os.lookup f done = Some Dir ->
    (forall pre c, pre `prefix_of` todo ->
                   Os.lookup f (done ++ pre) <> Some (File c)) ->
    exists f',
      Os.makedirs_from done todo f = inr f'
      /\ (forall pre, pre `prefix_of` todo ->
                      Os.lookup f' (done ++ pre) = Some Dir)
      /\ (forall k n, Os.lookup f k = Some n -> Os.lookup f' k = Some n).
Proof.
  induction todo as [|c todo IH]; intros done f Hdone Hfree.
  - exists f. split; [reflexivity|]. split; [|auto].
    intros pre Hpre. apply prefix_nil_inv in Hpre. subst pre.
    rewrite app_nil_r. exact Hdone.
  - simpl.
    assert (Hfree' : forall g,
               (forall k, k <> done ++ [c] -> Os.lookup g k = Os.lookup f k) ->
               Os.lookup g (done ++ [c]) = Some Dir ->
               forall pre c0, pre `prefix_of` todo ->
                 Os.lookup g ((done ++ [c]) ++ pre) <> Some (File c0)).
    { intros g Hg Hd pre c0 Hpre.
      destruct pre as [|x pre].
      - rewrite app_nil_r, Hd. discriminate.
      - rewrite Hg.
        + rewrite <- app_assoc. apply Hfree. simpl. by apply prefix_cons.
        + intros Heq. apply (f_equal length) in Heq.
          rewrite !length_app in Heq. simpl in Heq. lia. }
    assert (Hconcl : forall g f',
               (forall k n, Os.lookup f k = Some n -> Os.lookup g k = Some n) ->
               (forall pre, pre `prefix_of` todo ->
                            Os.lookup f' ((done ++ [c]) ++ pre) = Some Dir) ->
               (forall k n, Os.lookup g k = Some n -> Os.lookup f' k = Some n) ->
               (forall pre, pre `prefix_of` (c :: todo) ->
                            Os.lookup f' (done ++ pre) = Some Dir)
               /\ (forall k n, Os.lookup f k = Some n -> Os.lookup f' k = Some n)).
    { intros g f' Hfg Hdirs Hkeep. split; [|auto].
      intros pre Hpre. destruct pre as [|x pre].
      - rewrite app_nil_r. auto.
      - destruct Hpre as [rest Hrest]. simpl in Hrest. injection Hrest as -> ->.
        replace (done ++ x :: pre) with ((done ++ [x]) ++ pre)
          by (rewrite <- app_assoc; reflexivity).
        apply Hdirs. by exists rest. }
    destruct (Os.lookup f (done ++ [c])) as [[|content]|] eqn:Hd.
    + destruct (IH (done ++ [c]) f Hd (Hfree' f (fun _ _ => eq_refl) Hd))
        as (f' & Hrun & Hdirs & Hkeep).
      exists f'. split; [exact Hrun|]. apply (Hconcl f); auto.
    + exfalso. apply (Hfree [c] content); [|exact Hd].
      by apply prefix_cons, prefix_nil.
    + set (g := <[done ++ [c] := Dir]> f).
      assert (Hg : forall k, k <> done ++ [c] -> Os.lookup g k = Os.lookup f k).
      { intros k Hk. destruct k as [|x k]; [reflexivity|].
        unfold Os.lookup, g. by rewrite lookup_insert_ne. }
      assert (Hgd : Os.lookup g (done ++ [c]) = Some Dir).
      { rewrite lookup_nonempty by apply snoc_nonempty.
        unfold g. apply lookup_insert_eq. }
      destruct (IH (done ++ [c]) g Hgd (Hfree' g Hg Hgd))
        as (f' & Hrun & Hdirs & Hkeep).
      exists f'. split; [exact Hrun|]. apply (Hconcl g); auto.
      intros k n Hk. rewrite Hg; [exact Hk|]. intros ->. congruence.
Qed.

(** Whenever [os.makedirs] returns, the directory it was asked for exists. *)
Lemma makedirs_from_dir (todo : list string) :
  forall (done : list string) (f f' : gmap (list string) node),
    Os.lookup f done = Some Dir ->
    Os.makedirs_from done todo f = inr f' ->
    Os.lookup f' (done ++ todo) = Some Dir.
Proof.
  induction todo as [|c todo IH]; intros done f f' Hdone Hrun; simpl in Hrun.
  - rewrite app_nil_r. congruence.
  - replace (done ++ c :: todo) with ((done ++ [c]) ++ todo)
      by (rewrite <- app_assoc; reflexivity).
    destruct (Os.lookup f (done ++ [c])) as [[|content]|] eqn:Hd.
    + by apply (IH _ f).
    + discriminate.
    + apply (IH _ (<[done ++ [c] := Dir]> f)); [|exact Hrun].
      rewrite lookup_nonempty by apply snoc_nonempty. apply lookup_insert_eq.
Qed.

(** When a file lies on the way, [os.makedirs] fails at the outermost one
    and reports [EEXIST] when that file is the path itself, [ENOTDIR] when
    it is above it. *)
Lemma makedirs_from_file (todo : list string) :
  forall (done : list string) (f : gmap (list string) node) pre c,
    pre `prefix_of` todo ->
    pre <> [] ->
    Os.lookup f (done ++ pre) = Some (File c) ->
    exists errno below,
      Os.makedirs_from done todo f = inl (errno, below)
      /\ (errno = Py.EEXIST /\ below = O
          /\ (exists c', Os.lookup f (done ++ todo) = Some (File c'))
          \/ errno = Py.ENOTDIR
             /\ exists pre' c', pre' `prefix_of` todo /\ pre' <> todo
                                /\ Os.lookup f (done ++ pre') = Some (File c')).
Proof.
  induction todo as [|x todo IH]; intros done f pre c Hpre Hne Hfile.
  - apply prefix_nil_inv in Hpre. congruence.
  - destruct pre as [|y pre]; [congruence|].
    destruct Hpre as [rest Hrest]. simpl in Hrest. injection Hrest as <- ->.
    simpl.
    assert (Hstep : forall g,
               (forall k, k <> done ++ [x] -> Os.lookup g k = Os.lookup f k) ->
               Os.lookup g (done ++ [x]) = Some Dir ->
               pre <> [] ->
               exists errno below,
                 Os.makedirs_from (done ++ [x]) (pre ++ rest) g = inl (errno, below)
                 /\ (errno = Py.EEXIST /\ below = O
                     /\ (exists c', Os.lookup f (done ++ x :: pre ++ rest)
                                    = Some (File c'))
                     \/ errno = Py.ENOTDIR
                        /\ exists pre' c',
                             pre' `prefix_of` x :: pre ++ rest
                             /\ pre' <> x :: pre ++ rest
                             /\ Os.lookup f (done ++ pre') = Some (File c'))).
    { intros g Hg Hgd Hpre'.
      assert (Hlong : forall q, q <> [] -> (done ++ [x]) ++ q <> done ++ [x]).
      { intros q Hq Heq. apply (f_equal length) in Heq.
        rewrite !length_app in Heq. destruct q; [congruence|]. simpl in Heq. lia. }
      destruct (IH (done ++ [x]) g pre c) as (errno & below & Hrun & Hcase).
      - by exists rest.
      - exact Hpre'.
      - rewrite Hg by (by apply Hlong). rewrite <- app_assoc. exact Hfile.
      - exists errno, below. split; [exact Hrun|].
        destruct Hcase as [(-> & -> & c' & Hc')|(-> & pre' & c' & Hp' & Hn' & Hc')].
        + left. split; [reflexivity|]. split; [reflexivity|]. exists c'.
          rewrite Hg in Hc'.
          * rewrite <- app_assoc in Hc'. exact Hc'.
          * apply Hlong. destruct pre; [congruence|discriminate].
        + right. split; [reflexivity|].
          destruct pre' as [|z pre'].
          * rewrite app_nil_r in Hc'. congruence.
          * exists (x :: z :: pre'), c'. split; [by apply prefix_cons|].
            split; [intros Heq; injection Heq as Heq; by apply Hn'|].
            rewrite Hg in Hc' by (by apply Hlong).
            rewrite <- app_assoc in Hc'. exact Hc'. }
    destruct pre as [|y pre].
    + (* the file is this component *)
      clear Hstep. simpl in *. rewrite Hfile. destruct rest as [|r rest].
      * eexists _, _. split; [reflexivity|].
        left. split; [reflexivity|]. split; [reflexivity|]. eauto.
      * eexists _, _. split; [reflexivity|].
        right. split; [reflexivity|]. exists [x], c.
        split; [by apply prefix_cons, prefix_nil|]. split; [discriminate|exact Hfile].
    + destruct (Os.lookup f (done ++ [x])) as [[|content]|] eqn:Hd.
      * apply Hstep; [reflexivity|exact Hd|discriminate].
      * eexists _, _. split; [reflexivity|]. right. split; [reflexivity|].
        exists [x], content. split; [by apply prefix_cons, prefix_nil|].
        split; [discriminate|exact Hd].
      * apply Hstep; [| |discriminate].
        -- intros k Hk. destruct k as [|z k]; [reflexivity|].
           unfold Os.lookup. by rewrite lookup_insert_ne.
        -- rewrite lookup_nonempty by apply snoc_nonempty. apply lookup_insert_eq.
Qed.

(** C9 (amended).  Let the destination be a plain path and the version list
    not be empty.  Whenever the constructor returns, the destination is a
    directory.  When no file lies on the way to the destination (at the
    destination itself or at one of its ancestors), the constructor
    returns; the destination and all its ancestors are directories
    afterwards, whether or not they existed before, and every file and
    directory that existed is still there.  When a file lies on the way,
    the constructor raises the [OSError] of [os.makedirs] and creates
    nothing: [FileExistsError] for the destination path when the
    destination itself is a file, [NotADirectoryError] when a file lies
    above it. *)
Theorem init_creates_destination ext a st :
  Os.plain_path (arg_destination_directory_path a) = true ->
  arg_driver_version a <> Some [] ->
  (forall self st',
     __init__ ext a st = (st', inr self) ->
     Os.is_dir st' (destination_directory_path self) = true)
  /\ ((forall k c, k `prefix_of` Os.resolve st (arg_destination_directory_path a) ->
                   Os.lookup (fs st) k <> Some (File c)) ->
      exists self st',
        __init__ ext a st = (st', inr self)
        /\ destination_directory_path self = arg_destination_directory_path a
        /\ cwd st' = cwd st
        /\ Os.is_dir st' (destination_directory_path self) = true
        /\ (forall k, k `prefix_of` Os.resolve st (arg_destination_directory_path a) ->
                      Os.lookup (fs st') k = Some Dir)
        /\ (forall k n, Os.lookup (fs st) k = Some n -> Os.lookup (fs st') k = Some n))
  /\ (forall k c, k `prefix_of` Os.resolve st (arg_destination_directory_path a) ->
                  Os.lookup (fs st) k = Some (File c) ->
      exists st' errno filename,
        __init__ ext a st = (st', inl (Py.OSError errno filename))
        /\ fs st' = fs st
        /\ (errno = Py.EEXIST
            /\ filename = arg_destination_directory_path a
            /\ (exists c', Os.lookup (fs st)
                             (Os.resolve st (arg_destination_directory_path a))
                           = Some (File c'))
            \/ errno = Py.ENOTDIR
               /\ exists k' c',
                    k' `prefix_of` Os.resolve st (arg_destination_directory_path a)
                    /\ k' <> Os.resolve st (arg_destination_directory_path a)
                    /\ Os.lookup (fs st) k' = Some (File c'))).
Proof.
  intros _ Hver.
  assert (Hinit : exists self0 s,
             destination_directory_path self0 = arg_destination_directory_path a
             /\ fs s = fs st /\ cwd s = cwd st
             /\ __init__ ext a st
                = bind (Os.makedirs (destination_directory_path self0))
                       (fun _ => ret self0) s).
  { unfold __init__. unfold bind at 1. unfold modify at 1.
    destruct (arg_driver_version a) as [[|v vs]|]; [congruence| |].
    - unfold bind at 1. unfold ret at 1. eexists _, _.
      split; [|split; [|split; [|reflexivity]]]; reflexivity.
    - unfold bind at 1. rewrite log_then. unfold ret at 1. eexists _, _.
      split; [|split; [|split; [|reflexivity]]]; [reflexivity| |].
      + by rewrite Log_fs.
      + rewrite Log_state. by destruct (arg_verbose a). }
  destruct Hinit as (self0 & s & Hdest & Hfs & Hcwd & ->).
  assert (Hres : Os.resolve s (destination_directory_path self0)
                 = Os.resolve st (arg_destination_directory_path a)).
  { unfold Os.resolve. by rewrite Hdest, Hcwd. }
  unfold bind, Os.makedirs. rewrite Hres, Hfs.
  split; [|split].
  - intros self st' H.
    destruct (Os.makedirs_from [] _ (fs st)) as [[errno below]|f'] eqn:Hrun;
      [discriminate|].
    unfold ret in H. injection H as <- <-.
    pose proof (makedirs_from_dir _ [] (fs st) f' eq_refl Hrun) as Hd.
    simpl in Hd. unfold Os.is_dir, Os.node_at. simpl.
    change (Os.resolve (with_fs f' s) (destination_directory_path self0))
      with (Os.resolve s (destination_directory_path self0)).
    by rewrite Hres, Hd.
  - intros Hfree.
    destruct (makedirs_from_ok (Os.resolve st (arg_destination_directory_path a))
                [] (fs st) eq_refl Hfree) as (f' & Hrun & Hdirs & Hkeep).
    simpl in Hdirs. rewrite Hrun.
    exists self0, (with_fs f' s). split; [reflexivity|].
    split; [exact Hdest|]. split; [exact Hcwd|]. split; [|auto].
    unfold Os.is_dir, Os.node_at. simpl.
    change (Os.resolve (with_fs f' s) (destination_directory_path self0))
      with (Os.resolve s (destination_directory_path self0)).
    rewrite Hres, Hdirs; reflexivity.
  - intros k c Hk Hfile.
    assert (Hne : k <> []) by (intros ->; discriminate).
    destruct (makedirs_from_file _ [] (fs st) k c Hk Hne Hfile)
      as (errno & below & Hrun & Hcase).
    rewrite Hrun. eexists _, _, _. split; [reflexivity|]. split; [exact Hfs|].
    destruct Hcase as [(-> & -> & Hc')|(-> & Hc')].
    + left. split; [reflexivity|]. split; [exact Hdest|exact Hc'].
    + right. split; [reflexivity|exact Hc'].
Qed.

Lemma init_creates_destination_witness :
  let a := Namespace false "/proj/src" "/out/a/b" None false false false
                     (Some ["1.2"]) in
  Os.node_at (Sample.host []) "/out" = None
  /\ (exists self st',
        __init__ (Sample.ext [] 0) a (Sample.host []) = (st', inr self)
        /\ Os.is_dir st' "/out/a/b" = true
        /\ Os.is_dir st' "/out/a" = true
        /\ Os.is_dir st' "/proj/src" = true)
  /\ (exists st' filename,
        __init__ (Sample.ext [] 0) a (Sample.host [(["out"], File "")])
        = (st', inl (Py.OSError Py.ENOTDIR filename))
        /\ fs st' = fs (Sample.host [(["out"], File "")])).
Proof.
  cbv zeta. split; [reflexivity|]. split.
  - destruct (init_creates_destination (Sample.ext [] 0)
                (Namespace false "/proj/src" "/out/a/b" None false false
                           false (Some ["1.2"]))
                (Sample.host []) eq_refl) as (_ & Hok & _); [discriminate|].
    destruct Hok as (self & st' & Hrun & Hdest & Hcwd & Hdir & Hdirs & Hkeep).
    { intros k c [rest Hrest] Hl.
      destruct k as [|x [|y [|z [|w k]]]]; vm_compute in Hrest; simplify_eq;
        vm_compute in Hl; discriminate. }
    exists self, st'. split; [exact Hrun|].
    change (cwd (Sample.host [])) with "/work" in Hcwd.
    simpl in Hdest. rewrite Hdest in Hdir.
    split; [exact Hdir|]. split.
    + unfold Os.is_dir, Os.node_at, Os.resolve. rewrite Hcwd.
      change (OsPath.components (OsPath.join "/work" "/out/a")) with ["out"; "a"].
      rewrite (Hdirs ["out"; "a"]); [reflexivity|].
      change (Os.resolve (Sample.host []) "/out/a/b") with (["out"; "a"] ++ ["b"]).
      by apply prefix_app_r.
    + unfold Os.is_dir, Os.node_at, Os.resolve. rewrite Hcwd.
      change (OsPath.components (OsPath.join "/work" "/proj/src")) with ["proj"; "src"].
      rewrite (Hkeep ["proj"; "src"] Dir); reflexivity.
  - destruct (init_creates_destination (Sample.ext [] 0)
                (Namespace false "/proj/src" "/out/a/b" None false false
                           false (Some ["1.2"]))
                (Sample.host [(["out"], File "")]) eq_refl) as (_ & _ & Hfail);
      [discriminate|].
    destruct (Hfail ["out"] "") as (st' & errno & filename & Hrun & Hfs & Hcase).
    { by exists ["a"; "b"]. }
    { reflexivity. }
    destruct Hcase as [(_ & _ & c' & Hc')|(-> & _)].
    + vm_compute in Hc'. discriminate.
    + exists st', filename. split; [exact Hrun|exact Hfs].
Defined.

(** When the destination path names an existing file, [os.makedirs] raises
    [FileExistsError] although [exist_ok] is set, and so does the
    constructor: no destination directory exists afterwards. *)
Lemma init_fails_when_destination_is_a_file :
  let a := Namespace false "/proj/src" "/out" None false false false
                     (Some ["1.2"]) in
  let st := Sample.host [(["out"], File "")] in
  __init__ (Sample.ext [] 0) a st
  = (with_bytes_io (Some "") st, inl (Py.OSError Py.EEXIST "/out"))
  /\ Os.is_dir (fst (__init__ (Sample.ext [] 0) a st)) "/out" = false.
Proof. cbv zeta. split; reflexivity. Qed.

(** The same holds when an ancestor of the destination is a file; the
    error names the path just below the file, which [mkdir] refused. *)
Example init_names_the_path_below_the_file :
  snd (__init__ (Sample.ext [] 0)
         (Namespace false "/proj/src" "/out/a/b/c" None false false false None)
         (Sample.host [(["out"], File "")]))
  = inl (Py.OSError Py.ENOTDIR "/out/a").
Proof. reflexivity. Qed.

Example init_fails_when_an_ancestor_is_a_file :
  snd (__init__ (Sample.ext [] 0)
         (Namespace false "/proj/src" "/out/a" None false false false None)
         (Sample.host [(["out"], File "")]))
  = inl (Py.OSError Py.ENOTDIR "/out/a").
Proof. reflexivity. Qed.

(** ** [ParseXml] and [CreateFromManifest] as a whole *)

Lemma ParseXml_stops ext self root dir st :
  exists e,
    snd (ParseXml ext self root dir st) = inl e
    /\ fs (fst (ParseXml ext self root dir st)) = fs st
    /\ stdout (fst (ParseXml ext self root dir st)) = stdout st
    /\ (e = Py.Exception "DriverPackager: Invalid XML: Missing tag 'Driver'"
        \/ e = Py.Exception "DriverPackager: Invalid XML: Missing tag 'type'"
        \/ e = Py.Exception "DriverPackager: Invalid XML: Missing tag 'name'"
        \/ e = Py.NameError "driverName").
Proof.
  unfold ParseXml.
  destruct (bool_decide (Xml.tag root = "Driver")); simpl; [|eauto 10].
  destruct (Xml.get root "type") as [t|]; simpl; [|eauto 10].
  destruct (Xml.get root "name") as [n|]; simpl; [eauto 10|].
  unfold bind, setSquishLua, setC4i, modify, when, unbound, raise; simpl.
  destruct (Py.eq_str (Some t) "c4i"); simpl; eauto 10.
Qed.

(** X1.  Whatever the manifest, [ParseXml] raises before line 267: one of
    the three validation errors, or [NameError] on [driverName] (line 265).
    No command has been run, nothing has been printed and the file system is
    as it was. *)
Theorem ParseXml_always_raises ext self root dir st :
  exists e,
    snd (ParseXml ext self root dir st) = inl e
    /\ fs (fst (ParseXml ext self root dir st)) = fs st
    /\ stdout (fst (ParseXml ext self root dir st)) = stdout st
    /\ (e = Py.Exception "DriverPackager: Invalid XML: Missing tag 'Driver'"
        \/ e = Py.Exception "DriverPackager: Invalid XML: Missing tag 'type'"
        \/ e = Py.Exception "DriverPackager: Invalid XML: Missing tag 'name'"
        \/ e = Py.NameError "driverName").
Proof. apply ParseXml_stops. Qed.



(** ** [UpdateDriverXml]: when it succeeds and how it fails *)


(** X6.  [UpdateDriverXml] never changes the file system, and it has two
    outcomes only: it returns, or it raises ["Unable to update driver.xml"]
    with the buffer untouched (every exception of the body is caught at
    line 643).  It returns only when no update is requested, the descriptor
    can be read and parsed, and the buffer exists: a requested date update
    always fails (the unbound name of line 614), and so does a requested
    version update (line 630 or 633). *)
Theorem UpdateDriverXml_outcomes ext self path st :
  fs (fst (UpdateDriverXml ext self path st)) = fs st
  /\ (snd (UpdateDriverXml ext self path st) = inr tt
      \/ snd (UpdateDriverXml ext self path st)
         = inl (Py.Exception "Unable to update driver.xml")
         /\ bytes_io (fst (UpdateDriverXml ext self path st)) = bytes_io st)
  /\ (snd (UpdateDriverXml ext self path st) = inr tt ->
      update_modified self = false
      /\ Py.truthy (driver_version self) = false
      /\ (exists c root, Os.node_at st path = Some (File c)
                         /\ etree_fromstring ext c = inr root)
      /\ bytes_io st <> None).
Proof.
  unfold UpdateDriverXml, try_except.
  match goal with
  | |- context [match ?body st with _ => _ end] =>
      assert (Hbody : (exists e, body st = (st, inl e))
                      \/ (exists st', body st = (st', inr tt)
                                      /\ fs st' = fs st
                                      /\ update_modified self = false
                                      /\ Py.truthy (driver_version self) = false
                                      /\ (exists c root, Os.node_at st path = Some (File c)
                                             /\ etree_fromstring ext c = inr root)
                                      /\ bytes_io st <> None))
  end.
  { unfold etree_parse, etree_read, write_bytes_io, raise_if, unbound,
      raise, ret, bind; cbv beta.
    destruct (Os.node_at st path) as [[|c]|] eqn:Hfile; simpl; eauto.
    destruct (etree_fromstring ext c) as [code|root] eqn:Hparse; simpl; eauto.
    destruct (update_modified self); simpl; eauto.
    destruct (Py.truthy (driver_version self)); simpl.
    - destruct (Xml.find "version" root); simpl; eauto.
    - destruct (bytes_io st) as [b|] eqn:Hb; eauto.
      right. eexists. repeat split; eauto. }
  destruct Hbody as [[e ->]|(st' & -> & Hfs & Hm & Hv & Hp & Hb)].
  - rewrite log_then_raise. simpl. rewrite Log_fs, Log_bytes_io.
    split; [reflexivity|]. split; [auto|]. discriminate.
  - simpl. auto 10.
Qed.

(** ** [Squish] never completes *)

Lemma Squish_stops ext self root st :
  exists e,
    snd (Squish ext self root st) = inl e
    /\ fs (fst (Squish ext self root st)) = fs st
    /\ environ (fst (Squish ext self root st)) = environ st
    /\ bytes_io (fst (Squish ext self root st)) = bytes_io st
    /\ (e = Py.KeyError "PATH"
        \/ (exists errno, e = Py.OSError errno root)
        \/ e = Py.NameError "oldPath")
    /\ (e <> Py.NameError "oldPath" ->
        cwd (fst (Squish ext self root st)) = cwd st).
Proof.
  unfold Squish, Log, when, bind, Os.environ_get, Os.getcwd, Os.print,
    Os.chdir, modify, unbound, raise.
  destruct (verbose self); simpl.
  all: destruct (environ st !! "PATH") as [p|]; simpl; [|eauto 10].
  all: unfold Os.node_at, Os.resolve; simpl.
  all: destruct (Os.lookup (fs st) _) as [[|c]|]; simpl; [|eauto 12..].
  all: destruct (sys_frozen ext); simpl;
    eexists; repeat split; eauto; intros H; congruence.
Qed.

(** X3.  [Squish] never completes, in any state of the host.  It raises
    [KeyError] when [PATH] is not set (line 86), [OSError] when the
    directory cannot be entered (line 91), and otherwise [NameError] on the
    unbound name [oldPath] (line 108 or 117), before the squish tool is
    run.  The file system, the environment and the descriptor buffer are as
    they were.  The working directory is as it was in the first two cases;
    only the [NameError] leaves it changed, since lines 144-147 are never
    reached. *)
Theorem Squish_never_returns ext self root st :
  exists e,
    snd (Squish ext self root st) = inl e
    /\ fs (fst (Squish ext self root st)) = fs st
    /\ environ (fst (Squish ext self root st)) = environ st
    /\ bytes_io (fst (Squish ext self root st)) = bytes_io st
    /\ (e = Py.KeyError "PATH"
        \/ (exists errno, e = Py.OSError errno root)
        \/ e = Py.NameError "oldPath")
    /\ (e <> Py.NameError "oldPath" ->
        cwd (fst (Squish ext self root st)) = cwd st).
Proof. apply Squish_stops. Qed.

(** ** [GetEncryptFilename] *)

Lemma last_cons_case {A} (x : A) (l : list A) :
  last (x :: l) = match last l with Some y => Some y | None => Some x end.
Proof.
  destruct l as [|y l]; [reflexivity|].
  change (last (x :: y :: l)) with (last (y :: l)).
  assert (H : is_Some (last (y :: l))).
  { clear x. revert y. induction l as [|z l IH]; intros y; [by eexists|].
    apply (IH z). }
  by destruct H as [z ->].
Qed.

Lemma script_loop ext self (scripts : list Xml.element) :
  forall acc st,
    for_each scripts
      (fun script_element c4z_script_file =>
         if Py.eq_str (Xml.get script_element "encryption") "2" then
           bind get_state (fun st0 =>
             if squishLua_ st0 then
               ret (GetSquishyOutputFile ext (source_directory_path self) (fs st0))
             else ret (Xml.get script_element "file"))
         else ret c4z_script_file)
      acc st
    = (st, inr (match last (List.filter
                          (fun s => Py.eq_str (Xml.get s "encryption") "2")
                          scripts) with
                | Some s =>
                    if squishLua_ st
                    then GetSquishyOutputFile ext (source_directory_path self) (fs st)
                    else Xml.get s "file"
                | None => acc
                end)).
Proof.
  induction scripts as [|s scripts IH]; intros acc st; [reflexivity|].
  simpl. unfold bind at 1.
  destruct (Py.eq_str (Xml.get s "encryption") "2").
  - unfold bind at 1, get_state. rewrite last_cons_case.
    destruct (squishLua_ st) eqn:Hs; unfold ret at 1; rewrite IH, Hs;
      by destruct (last _).
  - unfold ret at 1. apply IH.
Qed.

Lemma GetEncryptFilename_eq ext self path st :
  GetEncryptFilename ext self path st
  = (st,
     match Os.node_at st path with
     | Some (File c) =>
         match etree_fromstring ext c with
         | inl code =>
             inl (Py.Exception
                    ("DriverPackager: Invalid XML (" +:+ path +:+ "): "
                       +:+ etree_syntax_error ext path c))
         | inr root =>
             inr (match last (List.filter
                                (fun s => Py.eq_str (Xml.get s "encryption") "2")
                                (Xml.findall2 "config" "script" root)) with
                  | Some s =>
                      if squishLua_ st
                      then GetSquishyOutputFile ext (source_directory_path self) (fs st)
                      else Xml.get s "file"
                  | None => None
                  end)
         end
     | Some Dir =>
         inl (match etree_read_dir ext path with
              | inl msg => Py.OSError_msg msg
              | inr code =>
                  Py.Exception
                    ("DriverPackager: Invalid XML (" +:+ path +:+ "): "
                       +:+ etree_syntax_error ext path "")
              end)
     | None => inl (Py.OSError_msg (etree_read_error ext path))
     end).
Proof.
  unfold GetEncryptFilename, try_except.
  unfold bind at 1. unfold etree_parse. unfold bind at 1. unfold etree_read.
  destruct (Os.node_at st path) as [[|c]|]; simpl; try reflexivity.
  { destruct (etree_read_dir ext path) as [msg|code]; reflexivity. }
  destruct (etree_fromstring ext c) as [code|root]; simpl; [reflexivity|].
  rewrite script_loop. reflexivity.
Qed.

(** X4.  For a plain path, [GetEncryptFilename] leaves the host as it is.
    When the path names nothing, the [OSError] of lxml, which has a message
    and no [errno], leaves the method: only [ParseError] is caught
    (line 207).  A malformed file raises
    ["DriverPackager: Invalid XML (path): "] followed by the message of the
    parser.  A directory gives the one or the other, as lxml refuses it or
    reads an empty document from it.  Otherwise the result is decided by
    the last [config/script] element whose [encryption] attribute is ['2']:
    its [file] attribute, or the squished output file when Lua squishing is
    enabled; [None] when there is no such element. *)
Theorem GetEncryptFilename_last_script_wins ext self path st :
  Os.plain_path path = true ->
  GetEncryptFilename ext self path st
  = (st,
     match Os.node_at st path with
     | Some (File c) =>
         match etree_fromstring ext c with
         | inl code =>
             inl (Py.Exception
                    ("DriverPackager: Invalid XML (" +:+ path +:+ "): "
                       +:+ etree_syntax_error ext path c))
         | inr root =>
             inr (match last (List.filter
                                (fun s => Py.eq_str (Xml.get s "encryption") "2")
                                (Xml.findall2 "config" "script" root)) with
                  | Some s =>
                      if squishLua_ st
                      then GetSquishyOutputFile ext (source_directory_path self) (fs st)
                      else Xml.get s "file"
                  | None => None
                  end)
         end
     | Some Dir =>
         inl (match etree_read_dir ext path with
              | inl msg => Py.OSError_msg msg
              | inr code =>
                  Py.Exception
                    ("DriverPackager: Invalid XML (" +:+ path +:+ "): "
                       +:+ etree_syntax_error ext path "")
              end)
     | None => inl (Py.OSError_msg (etree_read_error ext path))
     end).
Proof. intros _. apply GetEncryptFilename_eq. Qed.

(** ** Paths: a plain name under a directory *)

Lemma app_assoc_s (a b c : string) : (a +:+ b) +:+ c = a +:+ (b +:+ c).
Proof. induction a as [|x a IH]; [reflexivity|]. rewrite !append_String, IH. reflexivity. Qed.


Lemma rev_app_acc (s acc : string) :
  String.rev_app s acc = String.rev s +:+ acc.
Proof.
  unfold String.rev. revert acc.
  induction s as [|x s IH]; intros acc; [reflexivity|].
  simpl. rewrite IH. rewrite (IH (String x "")).
  rewrite app_assoc_s. reflexivity.
Qed.

Lemma rev_rev (s : string) : String.rev (String.rev s) = s.
Proof.
  unfold String.rev.
  assert (H : forall a b, String.rev_app (String.rev_app s a) b
                          = String.rev_app a (s +:+ b)).
  { induction s as [|x s IH]; intros a b; [reflexivity|].
    simpl. rewrite IH. reflexivity. }
  rewrite H. simpl. apply append_empty_r.
Qed.

Lemma endswith_sep_inv (a : string) :
  Py.endswith "/" a = true -> exists a', a = a' +:+ "/".
Proof.
  unfold Py.endswith. change (String.rev "/") with "/".
  destruct (String.rev a) as [|x r] eqn:Hr; [discriminate|].
  simpl. rewrite andb_true_r. intros Hx. apply bool_decide_eq_true_1 in Hx. subst x.
  exists (String.rev r).
  rewrite <- (rev_rev a), Hr. unfold String.rev at 1. simpl.
  apply rev_app_acc.
Qed.













Lemma append_nonempty_l (a b : string) : a <> "" -> a +:+ b <> "".
Proof. destruct a; [done|]. rewrite append_String. discriminate. Qed.

Lemma append_nonempty_r (a b : string) : b <> "" -> a +:+ b <> "".
Proof. destruct a; [done|]. rewrite append_String. discriminate. Qed.





(** ** [CleanupTmpFile] and the development-driver block *)

(** X7.  [CleanupTmpFile] never raises (its [except Exception] clause only
    logs), and it leaves the host exactly as it is unless execution is
    allowed and the backup [driver.lua.tmp] exists. *)
Theorem CleanupTmpFile_never_raises ext self dir st :
  snd (CleanupTmpFile ext self dir st) = inr tt
  /\ (allow_execute self = false
      \/ Os.path_exists st (OsPath.join dir "driver.lua.tmp") = false ->
      CleanupTmpFile ext self dir st = (st, inr tt)).
Proof.
  split; [apply CleanupTmpFile_returns|].
  unfold CleanupTmpFile, when. destruct (allow_execute self); [|reflexivity].
  intros [H|H]; [discriminate|].
  unfold try_except, bind, Os.exists_. rewrite H. reflexivity.
Qed.




(** ** The pre-package loop as a whole *)

Lemma prepackage_command_run ext self e t st :
  Xml.tag e = "PrepackageCommand" ->
  Xml.text e = Some t ->
  prepackage_command ext self e st
  = (with_fs (fst (shell ext (Py.replace "/"%char OsPath.sep
                                (Py.replace "\"%char OsPath.sep t))
                         (cwd st) (environ st) (fs st)))
             (with_stdout (stdout st ++ ["PrepackageCommand " +:+ t]) st),
     if bool_decide (snd (shell ext (Py.replace "/"%char OsPath.sep
                                       (Py.replace "\"%char OsPath.sep t))
                                (cwd st) (environ st) (fs st)) = 0)
     then inl (Py.Exception "Failed to execute prepackage command.")
     else inr tt).
Proof.
  intros Htag Htext. unfold prepackage_command, text_of. rewrite Htag, Htext.
  unfold bind, Os.print, modify, os_system, raise_if, ret, raise. simpl.
  destruct (shell ext _ (cwd st) (environ st) (fs st)) as [f status]. simpl.
  destruct (bool_decide (status = 0)); reflexivity.
Qed.

(** X9.  The pre-package loop (lines 267-288) stops at its first command
    when that command exits with status zero: the command has been echoed
    and run, ["Failed to execute prepackage command."] is raised and no
    later command is run. *)
Theorem prepackage_stops_at_first_success ext self root commands e rest t st :
  Xml.find "PrepackageCommands" root = Some commands ->
  Xml.children commands = e :: rest ->
  Xml.tag e = "PrepackageCommand" ->
  Xml.text e = Some t ->
  snd (shell ext (Py.replace "/"%char OsPath.sep (Py.replace "\"%char OsPath.sep t))
             (cwd st) (environ st) (fs st)) = 0 ->
  prepackage_commands ext self root st
  = (with_fs (fst (shell ext (Py.replace "/"%char OsPath.sep
                                (Py.replace "\"%char OsPath.sep t))
                         (cwd st) (environ st) (fs st)))
             (with_stdout (stdout st ++ ["PrepackageCommand " +:+ t]) st),
     inl (Py.Exception "Failed to execute prepackage command.")).
Proof.
  intros Hfind Hch Htag Htext Hz. unfold prepackage_commands.
  rewrite Hfind, Hch. simpl. unfold bind.
  rewrite (prepackage_command_run _ _ _ _ _ Htag Htext), Hz. reflexivity.
Qed.


(** X11.  A pre-package command element without text: the line
    [PrepackageCommand None] is printed, then [AttributeError] is raised by
    [.replace] on [None] (line 282); no shell command is run. *)
Theorem command_without_text_raises ext self e st :
  Xml.tag e = "PrepackageCommand" ->
  Xml.text e = None ->
  prepackage_command ext self e st
  = (with_stdout (stdout st ++ ["PrepackageCommand None"]) st,
     inl (Py.AttributeError "'NoneType' object has no attribute 'replace'")).
Proof.
  intros Htag Htext. unfold prepackage_command, text_of. rewrite Htag, Htext.
  reflexivity.
Qed.

(** ** The item loop resolves nothing *)

Lemma process_item_outcome ext self dir driver_type c4i item l st :
  snd (process_item ext self dir driver_type c4i item l st)
  = if negb (bool_decide (Xml.tag item = "Item")) then inr l
    else if Py.is_not_None (Xml.get item "type")
         then inl (Py.Exception "DriverPackager: Invalid XML: Missing tag 'Item' subtag 'type'")
         else if Py.is_not_None (Xml.get item "name")
              then inl (Py.Exception "DriverPackager: Invalid XML: Missing tag 'Item' subtag 'name'")
              else inr l.
Proof.
  unfold process_item.
  destruct (negb (bool_decide (Xml.tag item = "Item"))).
  - rewrite log_then. reflexivity.
  - destruct (Xml.get item "type") as [t|]; simpl; [apply cleanup_then_raise|].
    destruct (Xml.get item "name") as [n|]; simpl; [apply cleanup_then_raise|].
    destruct (item_excluded item); reflexivity.
Qed.

Lemma process_item_completes_fs ext self dir driver_type c4i item l st st' l' :
  process_item ext self dir driver_type c4i item l st = (st', inr l') ->
  fs st' = fs st.
Proof.
  unfold process_item.
  destruct (negb (bool_decide (Xml.tag item = "Item"))).
  - rewrite log_then. unfold ret. intros [= <- _]. apply Log_fs.
  - destruct (Xml.get item "type") as [t|]; simpl.
    { intros H. pose proof (cleanup_then_raise (A := locals) ext self dir
        (Py.Exception "DriverPackager: Invalid XML: Missing tag 'Item' subtag 'type'") st) as H'.
      rewrite H in H'. discriminate. }
    destruct (Xml.get item "name") as [n|]; simpl.
    { intros H. pose proof (cleanup_then_raise (A := locals) ext self dir
        (Py.Exception "DriverPackager: Invalid XML: Missing tag 'Item' subtag 'name'") st) as H'.
      rewrite H in H'. discriminate. }
    destruct (item_excluded item); unfold ret; simpl; intros [= <- _]; reflexivity.
Qed.

(** X12.  When the item loop (lines 313-483) completes, it has resolved
    nothing: the local variables, hence the lists of directories and files,
    are as before the loop, the file system is unchanged, and every element
    of the list either is not an [Item] or is an [Item] with neither a
    [type] nor a [name] attribute (the tests of lines 325 and 332 are the
    wrong way round). *)
Theorem item_loop_resolves_nothing ext self dir driver_type c4i items :
  forall l st st' l',
    for_each items (process_item ext self dir driver_type c4i) l st = (st', inr l') ->
    l' = l /\ fs st' = fs st
    /\ Forall (fun item => Xml.tag item <> "Item"
                           \/ Xml.get item "type" = None /\ Xml.get item "name" = None)
              items.
Proof.
  induction items as [|item items IH]; intros l st st' l' H.
  - unfold for_each, ret in H. injection H as <- <-. auto.
  - simpl in H. unfold bind in H.
    pose proof (process_item_outcome ext self dir driver_type c4i item l st) as Ho.
    destruct (process_item ext self dir driver_type c4i item l st) as [st1 [e|l1]] eqn:Hi;
      [discriminate|].
    pose proof (process_item_completes_fs _ _ _ _ _ _ _ _ _ _ Hi) as Hfs.
    simpl in Ho.
    destruct (IH _ _ _ _ H) as (-> & Hfs' & Hall).
    assert (Hitem : l1 = l /\ (Xml.tag item <> "Item"
               \/ Xml.get item "type" = None /\ Xml.get item "name" = None)).
    { destruct (bool_decide_reflect (Xml.tag item = "Item")) as [Ht|Ht]; simpl in Ho.
      - destruct (Xml.get item "type"); simpl in Ho; [discriminate|].
        destruct (Xml.get item "name"); simpl in Ho; [discriminate|].
        split; [congruence|auto].
      - split; [congruence|auto]. }
    destruct Hitem as [-> Hi'].
    split; [reflexivity|]. split; [congruence|]. by constructor.
Qed.

(** ** The descriptor item *)

Lemma bind_raises {A B} (m : M A) (k : A -> M B) st :
  (forall a s, exists e, snd (k a s) = inl e) ->
  exists e, snd (bind m k st) = inl e.
Proof.
  intros Hk. unfold bind. destruct (m st) as [s [e|a]]; simpl; [eauto|apply Hk].
Qed.

Lemma raises_bind {A B} (m : M A) (k : A -> M B) st :
  (exists e, snd (m st) = inl e) ->
  exists e, snd (bind m k st) = inl e.
Proof. intros [e He]. exists e. by apply raised_bind. Qed.

Lemma descriptor_item_stops ext self dir driver_type c4i item name l st :
  resolved_file_name (c4zScriptFile l) name = "driver.xml" ->
  (exists e, snd (process_file_item ext self dir driver_type c4i item (Some name) l st)
             = inl e)
  /\ (forall c root,
        Os.node_at st (OsPath.join dir "driver.xml") = Some (File c) ->
        etree_fromstring ext c = inr root ->
        Xml.findall2 "config" "documentation" root = [] ->
        process_file_item ext self dir driver_type c4i item (Some name) l st
        = (st, inl (Py.NameError "squishLua"))).
Proof.
  intros Hr.
  assert (Hname :
    (if Py.truthy (c4zScriptFile l) then
       bind (fspath (Some name)) (fun name0 =>
         let '(filename_without_last_extension, file_extension) :=
           OsPath.splitext name0 in
         if bool_decide (file_extension = ".encrypted")
         then ret (Some filename_without_last_extension)
         else ret (Some name))
     else ret (Some name)) st = (st, inr (Some "driver.xml"))).
  { rewrite <- Hr. unfold resolved_file_name.
    destruct (Py.truthy (c4zScriptFile l)); simpl; [|reflexivity].
    unfold bind, fspath, ret. destruct (OsPath.splitext name) as [stem extn]. simpl.
    destruct (bool_decide (extn = ".encrypted")); reflexivity. }
  split.
  - unfold process_file_item. unfold bind at 1. rewrite Hname.
    unfold bind at 1. unfold fspath at 1. unfold ret at 1.
    unfold bind at 1. unfold Os.exists_ at 1. cbv beta.
    destruct (Os.path_exists st (OsPath.join dir "driver.xml")); simpl.
    + unfold bind at 1. unfold ret at 1.
      apply raises_bind. apply bind_raises. intros a s.
      apply bind_raises. intros [] s'. eexists. reflexivity.
    + eexists. apply raised_bind. apply cleanup_then_raise.
  - intros c root Hfile Hparse Hdocs.
    unfold process_file_item. unfold bind at 1. rewrite Hname.
    unfold bind at 1. unfold fspath at 1. unfold ret at 1.
    unfold bind at 1. unfold Os.exists_ at 1. cbv beta.
    unfold Os.path_exists. rewrite Hfile. simpl.
    unfold bind at 1. unfold ret at 1.
    unfold bind at 1. unfold bind at 1. rewrite GetEncryptFilename_eq.
    rewrite Hfile, Hparse. simpl.
    unfold bind at 1. unfold inject_documentation.
    unfold bind at 1. unfold etree_parse. unfold bind at 1. unfold etree_read.
    rewrite Hfile. simpl. rewrite Hparse. simpl. rewrite Hdocs. simpl.
    reflexivity.
Qed.


(** ** File items and the encrypted-file suffix *)

(** C5 (the code departs from the claim).  No file item is ever resolved,
    under its name or under the name without the suffix.  An [Item] with a
    [type] attribute makes the loop body raise at line 325 (the test is the
    wrong way round) before the file branch is reached.  And the file
    branch never hands a detected script file name to a later item:
    whenever it completes, [c4zScriptFile] is what it was, because the
    descriptor item, the only one that assigns it (line 388), always stops
    (at the latest at the unbound name of line 465).  [ParseXml] starts
    with the empty string (line 233), for which line 368 strips
    nothing. *)
Theorem encrypted_suffix_never_stripped ext self dir driver_type c4i item name l st :
  Xml.tag item = "Item" ->
  Xml.get item "type" = Some "file" ->
  Xml.get item "name" = Some name ->
  snd (process_item ext self dir driver_type c4i item l st)
  = inl (Py.Exception "DriverPackager: Invalid XML: Missing tag 'Item' subtag 'type'")
  /\ (forall st' l',
        process_file_item ext self dir driver_type c4i item (Some name) l st
        = (st', inr l') ->
        c4zScriptFile l' = c4zScriptFile l)
  /\ resolved_file_name (Some "") name = name.
Proof.
  intros Htag Htype Hname. split; [|split; [|reflexivity]].
  - unfold process_item. rewrite Htag, Htype. simpl. apply cleanup_then_raise.
  - intros st' l' Hrun.
    destruct (bool_decide_reflect
                (resolved_file_name (c4zScriptFile l) name = "driver.xml"))
      as [Hd|Hd].
    { destruct (descriptor_item_stops ext self dir driver_type c4i item name l st Hd)
        as [[e He] _].
      rewrite Hrun in He. discriminate. }
    revert Hrun. unfold process_file_item.
    assert (Hres :
      (if Py.truthy (c4zScriptFile l) then
         bind (fspath (Some name)) (fun name0 =>
           let '(filename_without_last_extension, file_extension) :=
             OsPath.splitext name0 in
           if bool_decide (file_extension = ".encrypted")
           then ret (Some filename_without_last_extension)
           else ret (Some name))
       else ret (Some name)) st
      = (st, inr (Some (resolved_file_name (c4zScriptFile l) name)))).
    { unfold resolved_file_name.
      destruct (Py.truthy (c4zScriptFile l)); simpl; [|reflexivity].
      unfold bind, fspath, ret. destruct (OsPath.splitext name) as [stem extn]. simpl.
      destruct (bool_decide (extn = ".encrypted")); reflexivity. }
    unfold bind at 1. rewrite Hres.
    unfold bind at 1. unfold fspath at 1. unfold ret at 1.
    unfold bind at 1. unfold Os.exists_ at 1. cbv beta.
    destruct (Os.path_exists st _); simpl.
    + unfold bind at 1. unfold ret at 1.
      rewrite (bool_decide_eq_false_2 (_ = "driver.xml")) by assumption.
      simpl. unfold ret. intros [= <- <-]. reflexivity.
    + intros Hrun. apply (f_equal snd) in Hrun. simpl in Hrun.
      erewrite raised_bind in Hrun by apply cleanup_then_raise. discriminate.
Qed.

Lemma encrypted_suffix_never_stripped_witness :
  let item := Xml.Element "Item" [("type", "file"); ("name", "driver.lua.encrypted")]
                          None [] in
  let st := Sample.host [(["proj"; "src"; "driver.lua"], File "print(1)");
                         (["proj"; "src"; "driver.lua.encrypted"], File "x")] in
  snd (process_item (Sample.ext [] 0) Sample.packager "/proj/src" (Some "c4z")
                    false item (Locals true (Some "driver.lua") [] []) st)
  = inl (Py.Exception "DriverPackager: Invalid XML: Missing tag 'Item' subtag 'type'")
  /\ resolved_file_name (Some "") "driver.lua.encrypted" = "driver.lua.encrypted".
Proof.
  cbv zeta.
  destruct (encrypted_suffix_never_stripped (Sample.ext [] 0) Sample.packager
              "/proj/src" (Some "c4z") false
              (Xml.Element "Item" [("type", "file"); ("name", "driver.lua.encrypted")]
                           None [])
              "driver.lua.encrypted" (Locals true (Some "driver.lua") [] [])
              (Sample.host [(["proj"; "src"; "driver.lua"], File "print(1)");
                            (["proj"; "src"; "driver.lua.encrypted"], File "x")])
              eq_refl eq_refl eq_refl) as (Hraise & _ & Hkeep).
  split; [exact Hraise|exact Hkeep].
Defined.

(** ** The return code of [CreateFromManifest] *)

Lemma CreateFromManifest_code ext self path st :
  exists st',
    CreateFromManifest ext self path st
    = (st', inr (match Os.node_at st path with
                 | Some (File c) =>
                     match etree_fromstring ext c with
                     | inl code => Some code
                     | inr _ => Some 255
                     end
                 | Some Dir =>
                     match etree_read_dir ext path with
                     | inl _ => None
                     | inr code => Some code
                     end
                 | None => None
                 end))
    /\ fs st' = fs st.
Proof.
  unfold CreateFromManifest, try_except at 1.
  unfold bind at 1. unfold etree_parse. unfold bind at 1. unfold etree_read.
  destruct (Os.node_at st path) as [[|c]|]; simpl.
  - destruct (etree_read_dir ext path) as [msg|code]; simpl;
      rewrite log_then; eexists; (split; [reflexivity|apply Log_fs]).
  - destruct (etree_fromstring ext c) as [code|root]; simpl.
    + rewrite log_then. eexists. split; [reflexivity|apply Log_fs].
    + destruct (ParseXml_stops ext self root (source_directory_path self) st)
        as (e & He & Hfs & _).
      unfold try_except. unfold bind at 1.
      destruct (ParseXml ext self root (source_directory_path self) st) as [st' r].
      simpl in He, Hfs. subst r. rewrite log_then.
      eexists. split; [reflexivity|]. rewrite Log_fs. exact Hfs.
  - rewrite log_then. eexists. split; [reflexivity|apply Log_fs].
Qed.

(** X19.  For a plain path, [CreateFromManifest] never raises and never
    changes the file system.  It returns [None] when the path names
    nothing: the [OSError] of lxml has no [errno], and line 174 returns
    it.  It returns the error code of the parser for a malformed manifest,
    and 255 for every manifest that parses.  A directory gives [None] or
    an error code, as lxml refuses it or reads an empty document from
    it. *)
Theorem CreateFromManifest_return_code ext self path st :
  Os.plain_path path = true ->
  exists st',
    CreateFromManifest ext self path st
    = (st', inr (match Os.node_at st path with
                 | Some (File c) =>
                     match etree_fromstring ext c with
                     | inl code => Some code
                     | inr _ => Some 255
                     end
                 | Some Dir =>
                     match etree_read_dir ext path with
                     | inl _ => None
                     | inr code => Some code
                     end
                 | None => None
                 end))
    /\ fs st' = fs st.
Proof. intros _. apply CreateFromManifest_code. Qed.

(** ** The documentation block: when it does nothing, and what it writes *)

Lemma find_update_find t f e :
  (forall c, Xml.tag (f c) = Xml.tag c) ->
  Xml.find t (Xml.update_find t f e) = f <$> Xml.find t e.
Proof.
  intros Hf. unfold Xml.find, Xml.findall, Xml.update_find. simpl.
  induction (Xml.children e) as [|c cs IH]; [reflexivity|].
  simpl. destruct (Xml.has_tag t c) eqn:Hc; simpl.
  - unfold Xml.has_tag in *. rewrite Hf, Hc. reflexivity.
  - rewrite Hc. exact IH.
Qed.

Lemma find2_find t1 t2 root d :
  Xml.find2 t1 t2 root = Some d -> exists c, Xml.find t1 root = Some c.
Proof.
  unfold Xml.find2, Xml.findall2, Xml.find.
  destruct (Xml.findall t1 root) as [|c cs]; [discriminate|eauto].
Qed.


(** X15.  Let the descriptor and the text file it names be given by plain
    paths.  When the text file can be read and decoded in text mode and
    lxml takes the text, the documentation block makes the backup copy and
    then writes the descriptor back with, in its first [config] element,
    exactly one [documentation] child: a new element without attributes
    whose text is the decoded text of the file, placed last.  The other
    children of [config] are kept, in their order. *)
Theorem inject_documentation_rewrites ext self dir driver_type item_filepath
        st c root d textfile st1 bytes text :
  Os.plain_path item_filepath = true ->
  Os.plain_path (OsPath.join dir textfile) = true ->
  Os.node_at st item_filepath = Some (File c) ->
  etree_fromstring ext c = inr root ->
  Xml.find2 "config" "documentation" root = Some d ->
  Xml.get d "textfile" = Some textfile ->
  Os.copy item_filepath (item_filepath +:+ ".bak") st = (st1, inr tt) ->
  Os.node_at st1 (OsPath.join dir textfile) = Some (File bytes) ->
  decode_text ext None bytes = inr text ->
  xml_text_ok ext text = true ->
  Os.node_at st1 item_filepath = Some (File c) ->
  let new := Xml.Element "documentation" [] (Some text) [] in
  let root' :=
    Xml.update_find "config" (Xml.append new)
      (Xml.update_find "config" (Xml.remove_all "documentation") root) in
  inject_documentation ext self dir driver_type item_filepath st
  = Os.write item_filepath (etree_tostring ext true root') st1
  /\ exists config,
       Xml.find "config" root = Some config
       /\ Xml.find "config" root'
          = Some (Xml.append new (Xml.remove_all "documentation" config))
       /\ Xml.findall "documentation"
            (Xml.append new (Xml.remove_all "documentation" config)) = [new]
       /\ List.filter (fun e => negb (Xml.has_tag "documentation" e))
            (Xml.children (Xml.append new (Xml.remove_all "documentation" config)))
          = List.filter (fun e => negb (Xml.has_tag "documentation" e))
                        (Xml.children config).
Proof.
  intros _ _ Hfile Hparse Hdoc Htext Hcopy Htextfile Hdecode Hok Hstill new root'.
  destruct (find2_find _ _ _ _ Hdoc) as [config Hconfig].
  assert (Hfind1 : Xml.find "config"
             (Xml.update_find "config" (Xml.remove_all "documentation") root)
           = Some (Xml.remove_all "documentation" config)).
  { rewrite find_update_find by reflexivity. by rewrite Hconfig. }
  split.
  - unfold inject_documentation.
    unfold bind at 1. unfold etree_parse at 1. unfold bind at 1. unfold etree_read at 1.
    rewrite Hfile. simpl. rewrite Hparse. simpl.
    rewrite (find2_findall2 _ _ _ _ Hdoc). simpl. rewrite Hdoc.
    unfold bind at 1. simpl.
    unfold Xml.has. rewrite Htext.
    rewrite bool_decide_eq_true_2 by eauto.
    unfold bind at 1. simpl.
    unfold bind at 1.
    destruct (Xml.get d "file") as [f|] eqn:Hf;
      [rewrite bool_decide_eq_true_2 by eauto
      |rewrite bool_decide_eq_false_2 by (intros [? ?]; discriminate)];
      simpl.
    all: unfold bind at 1; rewrite Hcopy; simpl.
    all: unfold bind at 1; unfold try_finally, try_except; unfold bind at 1;
      unfold Os.read at 1; rewrite Htextfile; simpl.
    all: unfold read_text; unfold bind at 1; unfold Os.read; rewrite Htextfile;
      simpl; rewrite Hdecode; simpl.
    all: unfold bind at 1; unfold etree_parse; unfold bind at 1; unfold etree_read;
      rewrite Hstill; simpl; rewrite Hparse; simpl.
    all: rewrite Hconfig; unfold bind at 1; unfold ret at 1.
    all: rewrite Hfind1; unfold bind at 1; unfold ret at 1.
    all: rewrite Hok; unfold bind at 1; simpl.
    all: fold new; destruct (Py.eq_str driver_type "c4z"); reflexivity.
  - exists config. split; [exact Hconfig|]. split; [|split].
    + subst root'. rewrite find_update_find by reflexivity. by rewrite Hfind1.
    + unfold Xml.findall, Xml.append, Xml.remove_all. simpl.
      rewrite List.filter_app. simpl.
      replace (List.filter (Xml.has_tag "documentation")
                 (List.filter (fun c0 => negb (Xml.has_tag "documentation" c0))
                              (Xml.children config))) with (@nil Xml.element);
        [reflexivity|].
      induction (Xml.children config) as [|x xs IH]; [reflexivity|].
      simpl. destruct (Xml.has_tag "documentation" x) eqn:Hx; simpl;
        [exact IH|]. by rewrite Hx.
    + unfold Xml.append, Xml.remove_all. simpl. rewrite List.filter_app. simpl.
      rewrite app_nil_r.
      induction (Xml.children config) as [|x xs IH]; [reflexivity|].
      simpl. destruct (Xml.has_tag "documentation" x) eqn:Hx; simpl;
        [exact IH|]. rewrite Hx. simpl. by rewrite IH.
Qed.

(** ** The blocks after the compression *)

(** X16.  The single-file block (lines 508-561) and the extraction block
    (lines 563-576) never remove, write or extract anything: each reads the
    name [c4zName], which is bound nowhere, before its first call
    ([os.remove] at line 513, [os.path.join] at line 566), and raises
    [NameError] with the host as it is.  The extraction block does nothing
    at all when unzipping is not requested. *)
Theorem blocks_after_compression_stop ext self st :
  build_c4i ext self st = (st, inl (Py.NameError "c4zName"))
  /\ unzip_driver ext self st
     = (st, if unzip self then inl (Py.NameError "c4zName") else inr tt).
Proof.
  split; [reflexivity|].
  unfold unzip_driver, when. destruct (unzip self); reflexivity.
Qed.

(** ** Constructing a packager twice *)

Lemma makedirs_from_keeps (todo : list string) :
  forall (done : list string) (f f' : gmap (list string) node),
    Os.makedirs_from done todo f = inr f' ->
    forall k n, Os.lookup f k = Some n -> Os.lookup f' k = Some n.
Proof.
  induction todo as [|c todo IH]; intros done f f' Hrun k n Hk; simpl in Hrun.
  - congruence.
  - destruct (Os.lookup f (done ++ [c])) as [[|content]|] eqn:Hd.
    + by apply (IH _ _ _ Hrun).
    + discriminate.
    + apply (IH _ _ _ Hrun). destruct k as [|x k]; [exact Hk|].
      rewrite lookup_nonempty in Hd by apply snoc_nonempty.
      rewrite lookup_nonempty in Hk |- * by done.
      rewrite lookup_insert_ne; [exact Hk|]. intros Heq. congruence.
Qed.

Lemma makedirs_from_again (todo : list string) :
  forall (done : list string) (f f' : gmap (list string) node),
    Os.makedirs_from done todo f = inr f' ->
    Os.makedirs_from done todo f' = inr f'.
Proof.
  induction todo as [|c todo IH]; intros done f f' Hrun; simpl in *.
  - reflexivity.
  - destruct (Os.lookup f (done ++ [c])) as [[|content]|] eqn:Hd.
    + rewrite (makedirs_from_keeps _ _ _ _ Hrun _ _ Hd). by apply (IH _ f).
    + discriminate.
    + assert (Hd' : Os.lookup (<[done ++ [c] := Dir]> f) (done ++ [c]) = Some Dir).
      { rewrite lookup_nonempty by apply snoc_nonempty. apply lookup_insert_eq. }
      rewrite (makedirs_from_keeps _ _ _ _ Hrun _ _ Hd'). by apply (IH _ _ _ Hrun).
Qed.

Lemma init_steps ext a st :
  __init__ ext a st
  = match arg_driver_version a with
    | Some [] => (with_bytes_io (Some "") st, inl (Py.IndexError "list index out of range"))
    | version =>
        let self :=
          Self (arg_verbose a) (arg_source_directory_path a)
               (arg_destination_directory_path a) (arg_manifest_xml_filename a)
               (arg_unzip a) (arg_allowexecute a) (arg_update_modified a)
               (match version with Some (v :: _) => Some v | _ => None end) in
        let s :=
          match version with
          | None =>
              fst (Log ext self "Version argument not found, skipping version update."
                       (with_bytes_io (Some "") st))
          | _ => with_bytes_io (Some "") st
          end in
        match Os.makedirs_from [] (Os.resolve st (arg_destination_directory_path a))
                               (fs st) with
        | inr f => (with_fs f s, inr self)
        | inl (errno, below) =>
            (s, inl (Py.OSError errno
                       (Nat.iter below OsPath.dirname
                                 (arg_destination_directory_path a))))
        end
    end.
Proof.
  unfold __init__. unfold bind at 1. unfold modify at 1.
  destruct (arg_driver_version a) as [[|v vs]|]; [reflexivity| |].
  - unfold bind at 1. unfold ret at 1. unfold bind, Os.makedirs. simpl.
    change (Os.resolve (with_bytes_io (Some "") st) (arg_destination_directory_path a))
      with (Os.resolve st (arg_destination_directory_path a)).
    by destruct (Os.makedirs_from _ _ _) as [[errno below]|f].
  - unfold bind at 1. rewrite log_then. unfold ret at 1.
    unfold bind, Os.makedirs. simpl. rewrite Log_fs. simpl.
    replace (Os.resolve _ (arg_destination_directory_path a))
      with (Os.resolve st (arg_destination_directory_path a))
      by (rewrite Log_state; by destruct (arg_verbose a)).
    by destruct (Os.makedirs_from _ _ _) as [[errno below]|f].
Qed.

(** X20.  Constructing a packager is repeatable: after a construction that
    succeeded, a second one with the same arguments succeeds as well, gives
    the same packager and creates nothing ([os.makedirs] is called with
    [exist_ok=True]). *)
Theorem init_twice ext a st st1 self :
  __init__ ext a st = (st1, inr self) ->
  exists st2,
    __init__ ext a st1 = (st2, inr self) /\ fs st2 = fs st1.
Proof.
  rewrite !init_steps.
  destruct (arg_driver_version a) as [[|v vs]|]; [discriminate| |]; cbv zeta.
  - destruct (Os.makedirs_from [] (Os.resolve st _) (fs st)) as [[errno below]|f] eqn:Hrun;
      [discriminate|].
    intros [= <- <-]. simpl.
    change (Os.resolve (with_fs f (with_bytes_io (Some "") st))
                       (arg_destination_directory_path a))
      with (Os.resolve st (arg_destination_directory_path a)).
    rewrite (makedirs_from_again _ _ _ _ Hrun). eauto.
  - destruct (Os.makedirs_from [] (Os.resolve st _) (fs st)) as [[errno below]|f] eqn:Hrun;
      [discriminate|].
    intros [= <- <-]. simpl.
    replace (Os.resolve (with_fs f _) (arg_destination_directory_path a))
      with (Os.resolve st (arg_destination_directory_path a))
      by (rewrite Log_state; by destruct (arg_verbose a)).
    rewrite (makedirs_from_again _ _ _ _ Hrun). eauto.
Qed.

(** ** The search for a project file *)

Lemma find_project_file_spec (source_directory_path : string) (entries : list string) :
  let filename := Os.basename source_directory_path +:+ ".c4zproj" in
  find_project_file source_directory_path entries
  = if bool_decide (filename ∈ entries)
       && bool_decide (OsPath.splitext filename
                       = (Os.basename source_directory_path, ".c4zproj"))
    then Some (OsPath.join source_directory_path filename, filename)
    else None.
Proof.
  intros filename. induction entries as [|entry rest IH].
  - cbn [find_project_file].
    rewrite bool_decide_eq_false_2 by apply not_elem_of_nil. reflexivity.
  - cbn [find_project_file]. pose proof (splitext_app entry) as Happ.
    destruct (OsPath.splitext entry) as [stem extn] eqn:Hsplit. simpl in Happ.
    destruct (bool_decide_reflect (extn = ".c4zproj")) as [->|Hext].
    + unfold Os.split.
      destruct (bool_decide_reflect (Os.basename source_directory_path = stem))
        as [Hstem|Hstem].
      * assert (Hentry : entry = filename) by (unfold filename; congruence).
        rewrite Hentry in *.
        rewrite bool_decide_eq_true_2 by left.
        rewrite bool_decide_eq_true_2 by congruence. reflexivity.
      * rewrite IH.
        destruct (bool_decide_reflect
                    (OsPath.splitext filename
                     = (Os.basename source_directory_path, ".c4zproj"))) as [Hs|Hs];
          [|by rewrite !andb_false_r].
        rewrite !andb_true_r.
        assert (Hne : entry <> filename).
        { intros ->. rewrite Hs in Hsplit. congruence. }
        destruct (bool_decide_reflect (filename ∈ rest)) as [Hin|Hin].
        -- rewrite bool_decide_eq_true_2 by (by right).
           reflexivity.
        -- rewrite bool_decide_eq_false_2; [reflexivity|].
           intros [?|?]%elem_of_cons; congruence.
    + rewrite IH.
      destruct (bool_decide_reflect
                  (OsPath.splitext filename
                   = (Os.basename source_directory_path, ".c4zproj"))) as [Hs|Hs];
        [|by rewrite !andb_false_r].
      rewrite !andb_true_r.
      assert (Hne : entry <> filename).
      { intros ->. rewrite Hs in Hsplit. congruence. }
      destruct (bool_decide_reflect (filename ∈ rest)) as [Hin|Hin].
      * rewrite bool_decide_eq_true_2 by (by right).
        reflexivity.
      * rewrite bool_decide_eq_false_2; [reflexivity|].
        intros [?|?]%elem_of_cons; congruence.
Qed.

Lemma find_project_file_found source_directory_path entries path filename :
  find_project_file source_directory_path entries = Some (path, filename) ->
  filename ∈ entries
  /\ filename = Os.basename source_directory_path +:+ ".c4zproj"
  /\ path = OsPath.join source_directory_path filename.
Proof.
  rewrite find_project_file_spec. cbv zeta.
  destruct (bool_decide_reflect
              (Os.basename source_directory_path +:+ ".c4zproj" ∈ entries));
    [|discriminate].
  destruct (bool_decide _); [|discriminate]. simpl. intros [= <- <-]. auto.
Qed.

(** X22.  The result of the search does not depend on the order in which
    [os.listdir] gives the entries, although the loop stops at the first
    match: at most one name can match. *)
Theorem find_project_file_order source_directory_path entries entries' :
  entries ≡ₚ entries' ->
  find_project_file source_directory_path entries
  = find_project_file source_directory_path entries'.
Proof.
  intros Hp. rewrite !find_project_file_spec. cbv zeta.
  assert (Hiff : Os.basename source_directory_path +:+ ".c4zproj" ∈ entries
                 <-> Os.basename source_directory_path +:+ ".c4zproj" ∈ entries')
    by (by rewrite Hp).
  by rewrite (bool_decide_ext _ _ Hiff).
Qed.

(** X21.  The project file the search of lines 659-672 finds is an entry of
    the listing, its name is the last component of the source directory
    path followed by [.c4zproj], and the manifest path is that name joined
    to the source directory path. *)
Theorem find_project_file_sound source_directory_path entries path filename :
  find_project_file source_directory_path entries = Some (path, filename) ->
  filename ∈ entries
  /\ filename = Os.basename source_directory_path +:+ ".c4zproj"
  /\ path = OsPath.join source_directory_path filename.
Proof. apply find_project_file_found. Qed.

(** A trailing slash *)

Lemma rfind_from_snoc (c : ascii) (a : string) :
  forall i last,
    Py.rfind_from c (a +:+ String c "") i last = i + Z.of_nat (String.length a).
Proof.
  induction a as [|x a IH]; intros i last.
  - simpl. rewrite bool_decide_eq_true_2 by reflexivity. lia.
  - rewrite append_String. simpl. rewrite IH. lia.
Qed.

Lemma drop_all (a b : string) :
  Py.drop (String.length a) (a +:+ b) = b.
Proof. induction a as [|x a IH]; [by destruct b|]. rewrite append_String. exact IH. Qed.

Lemma basename_trailing_sep (p : string) :
  Py.endswith "/" p = true -> Os.basename p = "".
Proof.
  intros [a ->]%endswith_sep_inv. unfold Os.basename, Py.rfind.
  change "/" with (String OsPath.sep "") at 1 2.
  rewrite rfind_from_snoc.
  replace (Z.to_nat (0 + Z.of_nat (String.length a) + 1))
    with (String.length (a +:+ String OsPath.sep "")).
  - rewrite <- (append_empty_r (a +:+ String OsPath.sep "")) at 2. apply drop_all.
  - clear. induction a as [|x a IH]; [reflexivity|].
    rewrite append_String. simpl String.length. rewrite IH. lia.
Qed.

(** X23.  When the source directory path ends with a slash, its last
    component is empty and no entry is ever taken as the project file,
    whatever the directory holds. *)
Theorem project_file_never_found_after_trailing_slash source_directory_path entries :
  Py.endswith "/" source_directory_path = true ->
  find_project_file source_directory_path entries = None.
Proof.
  intros H. rewrite find_project_file_spec. cbv zeta.
  rewrite (basename_trailing_sep _ H).
  rewrite (bool_decide_eq_false_2 (OsPath.splitext _ = _)); [by rewrite andb_false_r|].
  vm_compute. discriminate.
Qed.

(** ** The method [DriverPackager] *)

(** X24.  With a manifest named on the command line whose path under the
    source directory is a plain path, the method [DriverPackager] never
    raises, never changes the file system, never calls [c4z.compress], and
    returns what [CreateFromManifest] returns for that path: [None] when
    it names nothing, the error code of the parser for a malformed
    manifest, 255 for a manifest that parses, and [None] or an error code
    for a directory. *)
Theorem DriverPackager_with_manifest ext compress self m st :
  manifest_xml_filename self = Some m ->
  Os.plain_path (OsPath.join (source_directory_path self) m) = true ->
  exists st',
    DriverPackager ext compress self st
    = (st', inr (match Os.node_at st (OsPath.join (source_directory_path self) m) with
                 | Some (File c) =>
                     match etree_fromstring ext c with
                     | inl code => Some code
                     | inr _ => Some 255
                     end
                 | Some Dir =>
                     match etree_read_dir ext
                             (OsPath.join (source_directory_path self) m) with
                     | inl _ => None
                     | inr code => Some code
                     end
                 | None => None
                 end))
    /\ fs st' = fs st.
Proof.
  intros Hm _. unfold DriverPackager. rewrite Hm. simpl.
  rewrite log_then. unfold bind, fspath, ret.
  destruct (CreateFromManifest_code ext self
              (OsPath.join (source_directory_path self) m)
              (fst (Log ext self ("Building driver from manifest " +:+ m +:+ "...") st)))
    as (st' & -> & Hfs).
  exists st'. rewrite Log_node_at. split; [reflexivity|].
  rewrite Hfs. apply Log_fs.
Qed.

Lemma join_nonempty (a b : string) : b <> "" -> OsPath.join a b <> "".
Proof.
  intros Hb. unfold OsPath.join. destruct (Py.startswith "/" b); [assumption|].
  destruct (bool_decide (a = "") || Py.endswith "/" a).
  - by apply append_nonempty_r.
  - apply append_nonempty_r. by apply append_nonempty_r.
Qed.

(** X25.  Without a named manifest, when the source directory, given by a
    plain path, lists the project file named after it, the method builds
    from that file: it returns what [CreateFromManifest] returns for it
    (the error code of the parser for a malformed file, 255 for one that
    parses, [None] or an error code when the entry is a directory) and
    leaves the file system unchanged. *)
Theorem DriverPackager_with_project_file ext compress self st path filename :
  manifest_xml_filename self = None ->
  Os.plain_path (source_directory_path self) = true ->
  Os.node_at st (source_directory_path self) = Some Dir ->
  find_project_file (source_directory_path self)
    (Os.entries_of (fs st) (Os.resolve st (source_directory_path self)))
  = Some (path, filename) ->
  exists st',
    DriverPackager ext compress self st
    = (st', inr (match Os.node_at st path with
                 | Some (File c) =>
                     match etree_fromstring ext c with
                     | inl code => Some code
                     | inr _ => Some 255
                     end
                 | Some Dir =>
                     match etree_read_dir ext path with
                     | inl _ => None
                     | inr code => Some code
                     end
                 | None => None
                 end))
    /\ fs st' = fs st
    /\ filename = Os.basename (source_directory_path self) +:+ ".c4zproj"
    /\ path = OsPath.join (source_directory_path self) filename.
Proof.
  intros Hm _ Hdir Hfound.
  destruct (find_project_file_found _ _ _ _ Hfound) as (_ & Hname & Hpath).
  assert (Hne : path <> "").
  { rewrite Hpath, Hname. apply join_nonempty. apply append_nonempty_r. discriminate. }
  unfold DriverPackager. rewrite Hm. simpl.
  unfold bind at 1. unfold Os.listdir. rewrite Hdir, Hfound. simpl.
  rewrite bool_decide_eq_false_2 by assumption. simpl.
  rewrite log_then. unfold bind, fspath, ret.
  destruct (CreateFromManifest_code ext self path
              (fst (Log ext self ("Building driver from manifest " +:+ filename +:+ "...") st)))
    as (st' & -> & Hfs).
  exists st'. rewrite Log_node_at. split; [reflexivity|].
  split; [rewrite Hfs; apply Log_fs|]. auto.
Qed.

Lemma directory_build_steps ext compress self st :
  manifest_xml_filename self = None ->
  Os.node_at st (source_directory_path self) = Some Dir ->
  find_project_file (source_directory_path self)
    (Os.entries_of (fs st) (Os.resolve st (source_directory_path self))) = None ->
  let squish_lua :=
    match Os.node_at st (source_directory_path self +:+ "/" +:+ "squishy") with
    | Some (File _) => true
    | _ => false
    end in
  let st1 :=
    fst (Log ext self
           ("Building driver from directory "
              +:+ OsPath.normpath (OsPath.join (cwd st) (source_directory_path self))
              +:+ "...")
           (with_squishLua_ squish_lua st)) in
  DriverPackager ext compress self st
  = bind (GetEncryptFilename ext self
            (OsPath.join (source_directory_path self) "driver.xml"))
         (fun c4z_script_filename =>
            bind (when squish_lua (Squish ext self (source_directory_path self)))
              (fun _ =>
                 bind getvalue (fun xmlByteOverride =>
                   bind (c4z_compress compress
                           (OsPath.join (destination_directory_path self)
                              (Os.basename (source_directory_path self) +:+ ".c4z"))
                           (source_directory_path self)
                           c4z_script_filename xmlByteOverride)
                        (fun _ => ret (Some 0)))))
         st1.
Proof.
  intros Hm Hdir Hfound sq st1. unfold DriverPackager. rewrite Hm. simpl.
  unfold bind at 1. unfold Os.listdir. rewrite Hdir, Hfound. simpl.
  unfold bind at 1. unfold Os.isfile.
  change (String OsPath.sep "") with "/". fold sq.
  assert (Hsq : (if sq then true else false) = sq) by (by destruct sq).
  destruct (Os.node_at st (source_directory_path self +:+ "/" +:+ "squishy"))
    as [[|c]|] eqn:Hn; subst sq; simpl.
  all: unfold bind at 1; unfold setSquishLua, modify.
  all: unfold bind at 1; unfold Os.abspath.
  all: rewrite log_then; reflexivity.
Qed.

Lemma bind_cong {A B} (m : M A) (k k' : A -> M B) st :
  (forall a s, k a s = k' a s) -> bind m k st = bind m k' st.
Proof. intros H. unfold bind. destruct (m st) as [s [e|a]]; [reflexivity|apply H]. Qed.

Lemma never_returns_bind {A B C} (m : M A) (k : A -> M B) (k' : A -> M C) st :
  (exists e, snd (m st) = inl e) ->
  exists e, bind m k st = (fst (m st), inl e) /\ bind m k' st = (fst (m st), inl e).
Proof.
  intros [e He]. exists e. unfold bind. destruct (m st) as [s r]. simpl in *.
  by subst r.
Qed.

(** X26.  Building from a directory that holds a [squishy] file never
    succeeds: the method raises (the descriptor cannot be read, or [Squish]
    stops), the file system is unchanged, and [c4z.compress] is never
    reached: the outcome is the same for every [compress]. *)
Theorem directory_build_with_squishy_raises ext compress self st c :
  manifest_xml_filename self = None ->
  Os.node_at st (source_directory_path self) = Some Dir ->
  find_project_file (source_directory_path self)
    (Os.entries_of (fs st) (Os.resolve st (source_directory_path self))) = None ->
  Os.node_at st (source_directory_path self +:+ "/" +:+ "squishy") = Some (File c) ->
  (exists e, snd (DriverPackager ext compress self st) = inl e)
  /\ fs (fst (DriverPackager ext compress self st)) = fs st
  /\ forall compress',
       DriverPackager ext compress' self st = DriverPackager ext compress self st.
Proof.
  intros Hm Hdir Hfound Hsq.
  assert (Hgen : forall compress0,
    DriverPackager ext compress0 self st
    = bind (GetEncryptFilename ext self
              (OsPath.join (source_directory_path self) "driver.xml"))
           (fun _ => bind (Squish ext self (source_directory_path self))
                          (fun _ => ret (Some 0)))
           (fst (Log ext self
                   ("Building driver from directory "
                      +:+ OsPath.normpath
                            (OsPath.join (cwd st) (source_directory_path self))
                      +:+ "...")
                   (with_squishLua_ true st)))).
  { intros compress0.
    rewrite directory_build_steps by assumption. cbv zeta. rewrite Hsq.
    apply bind_cong. intros script s. unfold when.
    destruct (never_returns_bind
                (Squish ext self (source_directory_path self))
                (fun _ => bind getvalue (fun xmlByteOverride =>
                   bind (c4z_compress compress0
                           (OsPath.join (destination_directory_path self)
                              (Os.basename (source_directory_path self) +:+ ".c4z"))
                           (source_directory_path self) script xmlByteOverride)
                        (fun _ => ret (Some 0))))
                (fun _ => ret (Some 0)) s) as (e & -> & ->); [|reflexivity].
    destruct (Squish_stops ext self (source_directory_path self) s)
      as (e & He & _). eauto. }
  split; [|split].
  - rewrite Hgen. apply bind_raises. intros script s. apply raises_bind.
    destruct (Squish_stops ext self (source_directory_path self) s)
      as (e & He & _). eauto.
  - rewrite Hgen. unfold bind at 1. rewrite GetEncryptFilename_eq.
    set (st1 := fst (Log ext self _ _)).
    assert (Hfs1 : fs st1 = fs st) by (unfold st1; by rewrite Log_fs).
    destruct (Os.node_at st1 _) as [[|c']|]; simpl; try exact Hfs1.
    destruct (etree_fromstring ext c') as [code|root]; simpl; [exact Hfs1|].
    destruct (Squish_stops ext self (source_directory_path self) st1)
      as (e & He & Hfs & _).
    unfold bind. destruct (Squish ext self (source_directory_path self) st1) as [st2 r].
    simpl in He, Hfs. subst r. simpl. congruence.
  - intros compress'. by rewrite !Hgen.
Qed.

(** X27.  Building from a directory, given by a plain path, without a
    [squishy] file and with a descriptor that parses returns 0 whatever
    [c4z.compress] returns (its result is not looked at, lines 708-716).
    The archive is built from the source directory with the script file of
    the last encrypted script element and the current content of the
    descriptor buffer, and Lua squishing is left disabled. *)
Theorem directory_build_returns_zero ext compress self st c root b :
  manifest_xml_filename self = None ->
  Os.plain_path (source_directory_path self) = true ->
  Os.node_at st (source_directory_path self) = Some Dir ->
  find_project_file (source_directory_path self)
    (Os.entries_of (fs st) (Os.resolve st (source_directory_path self))) = None ->
  (forall content,
     Os.node_at st (source_directory_path self +:+ "/" +:+ "squishy")
     <> Some (File content)) ->
  Os.node_at st (OsPath.join (source_directory_path self) "driver.xml")
  = Some (File c) ->
  etree_fromstring ext c = inr root ->
  bytes_io st = Some b ->
  exists st',
    DriverPackager ext compress self st = (st', inr (Some 0))
    /\ fs st'
       = fst (compress
                (OsPath.join (destination_directory_path self)
                   (Os.basename (source_directory_path self) +:+ ".c4z"))
                (source_directory_path self)
                (match last (List.filter
                               (fun s => Py.eq_str (Xml.get s "encryption") "2")
                               (Xml.findall2 "config" "script" root)) with
                 | Some s => Xml.get s "file"
                 | None => None
                 end)
                b (cwd st) (fs st))
    /\ squishLua_ st' = false.
Proof.
  intros Hm _ Hdir Hfound Hsq Hxml Hparse Hb.
  rewrite directory_build_steps by assumption. cbv zeta.
  assert (Hno : match Os.node_at st (source_directory_path self +:+ "/" +:+ "squishy") with
                | Some (File _) => true
                | _ => false
                end = false).
  { pose proof Hsq as Hsq'.
    destruct (Os.node_at st (source_directory_path self +:+ "/" +:+ "squishy"))
      as [[|content]|]; try reflexivity.
    by destruct (Hsq' content). }
  rewrite Hno.
  set (st1 := fst (Log ext self _ _)).
  assert (Hst1 : st1 = if verbose self
                       then with_stdout (stdout st ++ [strftime_now ext "%Y-%m-%d-%H:%M:%S"
                              +:+ ": " +:+ "Building driver from directory "
                              +:+ OsPath.normpath
                                    (OsPath.join (cwd st) (source_directory_path self))
                              +:+ "..."]) (with_squishLua_ false st)
                       else with_squishLua_ false st).
  { unfold st1. rewrite Log_state. reflexivity. }
  assert (Hn1 : Os.node_at st1 (OsPath.join (source_directory_path self) "driver.xml")
                = Some (File c)).
  { rewrite Hst1. destruct (verbose self); exact Hxml. }
  assert (Hb1 : bytes_io st1 = Some b).
  { rewrite Hst1. destruct (verbose self); exact Hb. }
  assert (Hs1 : squishLua_ st1 = false).
  { rewrite Hst1. by destruct (verbose self). }
  assert (Hc1 : cwd st1 = cwd st /\ fs st1 = fs st).
  { rewrite Hst1. by destruct (verbose self). }
  destruct Hc1 as [Hc1 Hf1].
  unfold bind at 1. rewrite GetEncryptFilename_eq, Hn1, Hparse, Hs1. cbv beta iota.
  unfold bind, when, ret, getvalue, c4z_compress. rewrite Hb1, Hc1, Hf1.
  destruct (compress _ _ _ _ _ _) as [f ok] eqn:Hcomp. simpl.
  eexists. split; [reflexivity|]. simpl. split; [|exact Hs1].
  destruct (last _); reflexivity.
Qed.

(** X28.  Building from a directory, given by a plain path, without
    [driver.xml] (and without a project file) makes the [OSError] of lxml
    leave the method: it has no handler around [GetEncryptFilename].  That
    error has a message and no [errno].  The file system is unchanged. *)
Theorem directory_build_without_descriptor ext compress self st :
  manifest_xml_filename self = None ->
  Os.plain_path (source_directory_path self) = true ->
  Os.node_at st (source_directory_path self) = Some Dir ->
  find_project_file (source_directory_path self)
    (Os.entries_of (fs st) (Os.resolve st (source_directory_path self))) = None ->
  Os.node_at st (OsPath.join (source_directory_path self) "driver.xml") = None ->
  snd (DriverPackager ext compress self st)
  = inl (Py.OSError_msg
           (etree_read_error ext
              (OsPath.join (source_directory_path self) "driver.xml")))
  /\ fs (fst (DriverPackager ext compress self st)) = fs st.
Proof.
  intros Hm _ Hdir Hfound Hxml.
  rewrite directory_build_steps by assumption. cbv zeta.
  set (st1 := fst (Log ext self _ _)).
  assert (Hn1 : Os.node_at st1 (OsPath.join (source_directory_path self) "driver.xml")
                = None).
  { unfold st1. rewrite Log_node_at. exact Hxml. }
  assert (Hfs1 : fs st1 = fs st) by (unfold st1; by rewrite Log_fs).
  split; unfold bind at 1; rewrite GetEncryptFilename_eq, Hn1;
    [reflexivity|exact Hfs1].
Qed.

(** X29.  Without a named manifest, a source path that is not a directory
    makes the method raise the [OSError] of [os.listdir] ([ENOENT] or
    [ENOTDIR]) with the host unchanged. *)
Theorem DriverPackager_source_not_a_directory ext compress self st :
  manifest_xml_filename self = None ->
  Os.node_at st (source_directory_path self) <> Some Dir ->
  exists errno,
    DriverPackager ext compress self st
    = (st, inl (Py.OSError errno (source_directory_path self)))
    /\ (errno = Py.ENOENT \/ errno = Py.ENOTDIR).
Proof.
  intros Hm Hdir. unfold DriverPackager. rewrite Hm. simpl.
  unfold bind at 1. unfold Os.listdir.
  destruct (Os.node_at st (source_directory_path self)) as [[|c]|]; [done|..];
    eexists; split; eauto.
Qed.

(** ** The properties above on the sample builds *)



Lemma prepackage_stops_at_first_success_witness :
  let commands :=
    Xml.Element "PrepackageCommands" [] None
      [Xml.Element "PrepackageCommand" [] (Some "make docs") [];
       Xml.Element "PrepackageCommand" [] (Some "make clean") []] in
  prepackage_commands (Sample.ext [] 0) Sample.packager
                      (Xml.Element "Driver" [] None [commands]) (Sample.host [])
  = (with_stdout ["PrepackageCommand make docs"] (Sample.host []),
     inl (Py.Exception "Failed to execute prepackage command.")).
Proof.
  exact (prepackage_stops_at_first_success (Sample.ext [] 0) Sample.packager
           (Xml.Element "Driver" [] None
              [Xml.Element "PrepackageCommands" [] None
                 [Xml.Element "PrepackageCommand" [] (Some "make docs") [];
                  Xml.Element "PrepackageCommand" [] (Some "make clean") []]])
           _ _ _ "make docs" (Sample.host []) eq_refl eq_refl eq_refl eq_refl eq_refl).
Defined.


Lemma command_without_text_raises_witness :
  prepackage_command (Sample.ext [] 0) Sample.packager
                     (Xml.Element "PrepackageCommand" [] None []) (Sample.host [])
  = (with_stdout ["PrepackageCommand None"] (Sample.host []),
     inl (Py.AttributeError "'NoneType' object has no attribute 'replace'")).
Proof.
  exact (command_without_text_raises (Sample.ext [] 0) Sample.packager
           (Xml.Element "PrepackageCommand" [] None []) (Sample.host [])
           eq_refl eq_refl).
Defined.

Lemma item_loop_resolves_nothing_witness :
  let items := [Xml.Element "Comment" [] (Some "sources") [];
                Xml.Element "Item" [("exclude", "false")] None []] in
  Forall (fun item => Xml.tag item <> "Item"
                      \/ Xml.get item "type" = None /\ Xml.get item "name" = None)
         items.
Proof.
  refine (proj2 (proj2 (item_loop_resolves_nothing (Sample.ext [] 0) Sample.packager
            "/proj/src" (Some "c4z") false
            [Xml.Element "Comment" [] (Some "sources") [];
             Xml.Element "Item" [("exclude", "false")] None []]
            (Locals false (Some "") [] []) (Sample.host [])
            (with_stdout ["now: Invalid XML: Found tag 'Comment', should be 'Item'"]
                         (Sample.host []))
            (Locals false (Some "") [] []) _))).
  vm_compute. reflexivity.
Defined.



Lemma inject_documentation_rewrites_witness :
  exists config,
    Xml.find "config"
      (Xml.update_find "config"
         (Xml.append (Xml.Element "documentation" []
                                  (Some ("Read me." +:+ newline)) []))
         (Xml.update_find "config" (Xml.remove_all "documentation")
                          Sample.descriptor))
    = Some config
    /\ Xml.children config
       = [Xml.Element "documentation" [] (Some ("Read me." +:+ newline)) []].
Proof.
  destruct (inject_documentation_rewrites (Sample.ext SampleBuild.docs 0)
              Sample.packager "/proj/src" (Some "c4z") "/proj/src/driver.xml"
              SampleBuild.host_documented Sample.descriptor_text Sample.descriptor
              (Xml.Element "documentation" [("textfile", "www/documentation.txt")]
                           None [])
              "www/documentation.txt"
              (fst (Os.copy "/proj/src/driver.xml" "/proj/src/driver.xml.bak"
                            SampleBuild.host_documented))
              SampleBuild.documentation_bytes ("Read me." +:+ newline)
              eq_refl eq_refl eq_refl eq_refl eq_refl eq_refl)
    as (_ & config & Hconfig & Hfind & _).
  - vm_compute. reflexivity.
  - vm_compute. reflexivity.
  - reflexivity.
  - reflexivity.
  - vm_compute. reflexivity.
  - eexists. split; [exact Hfind|].
    vm_compute in Hconfig. injection Hconfig as <-. reflexivity.
Defined.

Lemma GetEncryptFilename_last_script_wins_witness :
  GetEncryptFilename (Sample.ext SampleBuild.docs 0) Sample.packager
                     "/proj/src/driver.xml" SampleBuild.host_scripted
  = (SampleBuild.host_scripted, inr (Some "b.lua"))
  /\ GetEncryptFilename (Sample.ext SampleBuild.docs 0) Sample.packager
                        "/proj/src/missing.xml" SampleBuild.host_scripted
     = (SampleBuild.host_scripted,
        inl (Py.OSError_msg "Error reading file '/proj/src/missing.xml'")).
Proof.
  split.
  - exact (GetEncryptFilename_last_script_wins (Sample.ext SampleBuild.docs 0)
             Sample.packager "/proj/src/driver.xml" SampleBuild.host_scripted
             eq_refl).
  - exact (GetEncryptFilename_last_script_wins (Sample.ext SampleBuild.docs 0)
             Sample.packager "/proj/src/missing.xml" SampleBuild.host_scripted
             eq_refl).
Defined.

Lemma CreateFromManifest_return_code_witness :
  (exists st',
     CreateFromManifest (Sample.ext SampleBuild.docs 0) Sample.packager
                        "/proj/src/missing.c4zproj" SampleBuild.host_scripted
     = (st', inr None))
  /\ (exists st',
        CreateFromManifest (Sample.ext SampleBuild.docs 0) Sample.packager
                           "/proj/src" SampleBuild.host_scripted
        = (st', inr None))
  /\ (exists st',
        CreateFromManifest (Sample.ext [] 0) Sample.packager
                           "/proj/src/driver.xml" SampleBuild.host_scripted
        = (st', inr (Some 4))).
Proof.
  split; [|split].
  - destruct (CreateFromManifest_return_code (Sample.ext SampleBuild.docs 0)
                Sample.packager "/proj/src/missing.c4zproj"
                SampleBuild.host_scripted eq_refl) as (st' & Hrun & _).
    exists st'. exact Hrun.
  - destruct (CreateFromManifest_return_code (Sample.ext SampleBuild.docs 0)
                Sample.packager "/proj/src" SampleBuild.host_scripted eq_refl)
      as (st' & Hrun & _).
    exists st'. exact Hrun.
  - destruct (CreateFromManifest_return_code (Sample.ext [] 0)
                Sample.packager "/proj/src/driver.xml" SampleBuild.host_scripted
                eq_refl) as (st' & Hrun & _).
    exists st'. exact Hrun.
Defined.


Lemma postpackage_command_status_witness :
  postpackage_command (Sample.ext [] 0) Sample.packager
    (Xml.Element "Command" [] (Some "make install") []) (Sample.host [])
  = (with_stdout ["Command make install"; "Failed to execute postpackage command."]
                 (Sample.host []), inr tt).
Proof.
  apply (postpackage_command_status (Sample.ext [] 0) Sample.packager
           (Xml.Element "Command" [] (Some "make install") []) "make install"
           (Sample.host [])); [discriminate|reflexivity].
Defined.

Lemma init_twice_witness :
  let a := Namespace false "/proj/src" "/out/a" None false false false None in
  let st1 := fst (__init__ (Sample.ext [] 0) a (Sample.host [])) in
  exists st2,
    __init__ (Sample.ext [] 0) a st1
    = (st2, inr (Self false "/proj/src" "/out/a" None false false false None))
    /\ fs st2 = fs st1.
Proof.
  apply (init_twice (Sample.ext [] 0)
           (Namespace false "/proj/src" "/out/a" None false false false None)
           (Sample.host [])).
  vm_compute. reflexivity.
Defined.

Lemma find_project_file_sound_witness :
  "src.c4zproj" ∈ ["driver.lua"; "src.c4zproj"; "old.c4zproj"]
  /\ "src.c4zproj" = Os.basename "/proj/src" +:+ ".c4zproj"
  /\ "/proj/src/src.c4zproj" = OsPath.join "/proj/src" "src.c4zproj".
Proof.
  exact (find_project_file_sound "/proj/src"
           ["driver.lua"; "src.c4zproj"; "old.c4zproj"]
           "/proj/src/src.c4zproj" "src.c4zproj" eq_refl).
Defined.

Lemma find_project_file_order_witness :
  find_project_file "/proj/src" ["driver.lua"; "src.c4zproj"]
  = find_project_file "/proj/src" ["src.c4zproj"; "driver.lua"].
Proof.
  apply (find_project_file_order "/proj/src" ["driver.lua"; "src.c4zproj"]
           ["src.c4zproj"; "driver.lua"]).
  apply perm_swap.
Defined.

Lemma project_file_never_found_after_trailing_slash_witness :
  find_project_file "/proj/src/" ["driver.lua"; "src.c4zproj"; ".c4zproj"] = None.
Proof.
  exact (project_file_never_found_after_trailing_slash "/proj/src/"
           ["driver.lua"; "src.c4zproj"; ".c4zproj"] eq_refl).
Defined.

Lemma DriverPackager_with_manifest_witness :
  exists st',
    DriverPackager (Sample.ext SampleBuild.docs 0) SampleBuild.compress
                   SampleBuild.with_manifest SampleBuild.host_scripted
    = (st', inr None)
    /\ fs st' = fs SampleBuild.host_scripted.
Proof.
  exact (DriverPackager_with_manifest (Sample.ext SampleBuild.docs 0)
           SampleBuild.compress SampleBuild.with_manifest "sample.c4zproj"
           SampleBuild.host_scripted eq_refl eq_refl).
Defined.

Lemma DriverPackager_with_project_file_witness :
  exists st',
    DriverPackager (Sample.ext SampleBuild.docs 0) SampleBuild.compress
                   Sample.packager SampleBuild.host_project
    = (st', inr (Some 255))
    /\ fs st' = fs SampleBuild.host_project.
Proof.
  destruct (DriverPackager_with_project_file (Sample.ext SampleBuild.docs 0)
              SampleBuild.compress Sample.packager SampleBuild.host_project
              "/proj/src/src.c4zproj" "src.c4zproj" eq_refl eq_refl eq_refl)
    as (st' & Hrun & Hfs & _); [vm_compute; reflexivity|].
  exists st'. split; [exact Hrun|exact Hfs].
Defined.

Lemma directory_build_with_squishy_raises_witness :
  (exists e, snd (DriverPackager (Sample.ext SampleBuild.docs 0) SampleBuild.compress
                    Sample.packager SampleBuild.host_squishy) = inl e)
  /\ fs (fst (DriverPackager (Sample.ext SampleBuild.docs 0) SampleBuild.compress
                Sample.packager SampleBuild.host_squishy))
     = fs SampleBuild.host_squishy.
Proof.
  destruct (directory_build_with_squishy_raises (Sample.ext SampleBuild.docs 0)
              SampleBuild.compress Sample.packager SampleBuild.host_squishy
              "Main 'driver.lua'" eq_refl eq_refl)
    as (He & Hfs & _); [vm_compute; reflexivity|reflexivity|].
  split; [exact He|exact Hfs].
Defined.

Lemma directory_build_returns_zero_witness :
  exists st',
    DriverPackager (Sample.ext SampleBuild.docs 0) SampleBuild.compress
                   Sample.packager SampleBuild.host_scripted
    = (st', inr (Some 0))
    /\ fs st' = fst (SampleBuild.compress "/out/src.c4z" "/proj/src" (Some "b.lua")
                       "" "/work" (fs SampleBuild.host_scripted)).
Proof.
  destruct (directory_build_returns_zero (Sample.ext SampleBuild.docs 0)
              SampleBuild.compress Sample.packager SampleBuild.host_scripted
              SampleBuild.scripted_text SampleBuild.scripted ""
              eq_refl eq_refl eq_refl)
    as (st' & Hrun & Hfs & _);
    [vm_compute; reflexivity
    |intros content; vm_compute; discriminate
    |reflexivity..|].
  exists st'. split; [exact Hrun|exact Hfs].
Defined.

Lemma directory_build_without_descriptor_witness :
  snd (DriverPackager (Sample.ext [] 0) SampleBuild.compress Sample.packager
                      (Sample.host []))
  = inl (Py.OSError_msg "Error reading file '/proj/src/driver.xml'").
Proof.
  refine (proj1 (directory_build_without_descriptor (Sample.ext [] 0)
                   SampleBuild.compress Sample.packager (Sample.host [])
                   eq_refl eq_refl eq_refl _ eq_refl)).
  vm_compute. reflexivity.
Defined.

Lemma DriverPackager_source_not_a_directory_witness :
  exists errno,
    DriverPackager (Sample.ext [] 0) SampleBuild.compress
      (Self true "/proj/missing" "/out" None false false false None) (Sample.host [])
    = (Sample.host [], inl (Py.OSError errno "/proj/missing"))
    /\ (errno = Py.ENOENT \/ errno = Py.ENOTDIR).
Proof.
  apply (DriverPackager_source_not_a_directory (Sample.ext [] 0) SampleBuild.compress
           (Self true "/proj/missing" "/out" None false false false None)
           (Sample.host []) eq_refl).
  vm_compute. discriminate.
Defined.
